(** * AniScript Studio: project store, character import, scene editing,
      generation service and asset export.

    A shallow embedding of
    - [types.ts] (the enums and records),
    - [components/CharacterManager.tsx] ([handleImportJson], [removeCharacter]),
    - [components/Storyboard.tsx] ([handleSavePrompt], [handleGenerateImage],
      [handleDownloadAssets]),
    - [services/geminiService.ts] ([getClient], [generateStoryScenes],
      [generateScenePreview], [generateProjectIdea]),
    - [App.tsx] ([handleCreateProject], [updateProject], [handleDeleteProject]),
    followed by the properties of the specification.

    Conventions.  A JavaScript string is a [string] of [ascii] code units.
    Plain data that enters the program through [JSON.parse] without being
    validated is kept as a [JSON] value; data the program builds itself is a
    record.  What the platform supplies ([JSON.parse], [crypto.randomUUID],
    [Date.now], [process.env.API_KEY], the remote model) is a variable of
    the section that uses it. *)

From Stdlib Require Import ZArith List String Ascii Bool Lia.
From Stdlib Require Import DecimalString Permutation Sorted.
From Stdlib Require DecimalZ.
Import ListNotations.

Set Warnings "-register-all".

Open Scope string_scope.
Open Scope Z_scope.

(* ------------------------------------------------------------------ *)
(** ** JavaScript string primitives *)
(* ------------------------------------------------------------------ *)

Module Js.

(** The double quote and the line feed, which the sources write inside
    their literals. *)
Definition dq : string := String (ascii_of_nat 34) EmptyString.
Definition nl : string := String (ascii_of_nat 10) EmptyString.

(** [String(n)] for a safe integer, one below 2^53 in magnitude: there
    [String] writes the exact decimal numeral, as this does.  (Above,
    [String] writes the shortest digits that round to the number.) *)
Definition number_to_string (n : Z) : string :=
  NilZero.string_of_int (Z.to_int n).

Fixpoint repeat_fill (fill whole : string) (k : nat) : string :=
  match k with
  | O => EmptyString
  | S k' =>
      match fill with
      | EmptyString =>
          match whole with
          | EmptyString => EmptyString
          | String c rest => String c (repeat_fill rest whole k')
          end
      | String c rest => String c (repeat_fill rest whole k')
      end
  end.

(** [s.padStart(targetLength, padString)]. *)
Definition padStart (s : string) (targetLength : nat) (padString : string) : string :=
  if (targetLength <=? String.length s)%nat then s
  else match padString with
       | EmptyString => s
       | _ => repeat_fill padString padString (targetLength - String.length s) ++ s
       end.

(** [s.split(sep)] for a one-character separator: the pieces between the
    occurrences of [sep], never an empty list. *)
Fixpoint split (sep : ascii) (s : string) : list string :=
  match s with
  | EmptyString => [EmptyString]
  | String c rest =>
      if Ascii.eqb c sep then EmptyString :: split sep rest
      else match split sep rest with
           | piece :: pieces => String c piece :: pieces
           | [] => [String c EmptyString]
           end
  end.

(** Truthiness of a string and of an optional string ([undefined] is falsy). *)
Definition truthy_string (s : string) : bool :=
  match s with EmptyString => false | _ => true end.

Definition truthy_opt (o : option string) : bool :=
  match o with Some s => truthy_string s | None => false end.

(** [a || b] on optional strings. *)
Definition or_else (o : option string) (default : string) : string :=
  match o with
  | Some s => if truthy_string s then s else default
  | None => default
  end.

(** [a || b] on strings. *)
Definition or_default (s default : string) : string :=
  if truthy_string s then s else default.

Definition is_digit (c : ascii) : bool :=
  let n := nat_of_ascii c in ((48 <=? n) && (n <=? 57))%nat.
Definition is_lower (c : ascii) : bool :=
  let n := nat_of_ascii c in ((97 <=? n) && (n <=? 122))%nat.
Definition is_upper (c : ascii) : bool :=
  let n := nat_of_ascii c in ((65 <=? n) && (n <=? 90))%nat.

(** [s.replace(/[^a-z0-9]/gi, r)] for a one-character replacement. *)
Fixpoint replace_non_alnum (r : ascii) (s : string) : string :=
  match s with
  | EmptyString => EmptyString
  | String c rest =>
      String (if is_digit c || is_lower c || is_upper c then c else r)
             (replace_non_alnum r rest)
  end.

(** [s.toLowerCase()] on the ASCII letters. *)
Fixpoint toLowerCase (s : string) : string :=
  match s with
  | EmptyString => EmptyString
  | String c rest =>
      String (if is_upper c then ascii_of_nat (nat_of_ascii c + 32) else c)
             (toLowerCase rest)
  end.

End Js.

(* ------------------------------------------------------------------ *)
(** ** types.ts *)
(* ------------------------------------------------------------------ *)

Inductive VideoType := SHORT | LONG.

Definition VideoType_value (t : VideoType) : string :=
  match t with
  | SHORT => "YouTube Shorts (Vertical 9:16)"
  | LONG => "YouTube Long (Horizontal 16:9)"
  end.

Inductive AnimationStyle :=
  | DISNEY_PIXAR | ANIME_SHINKAI | CINEMATIC_REALISTIC
  | HAND_DRAWN_SKETCHY | CLAYMATION | CYBERPUNK.

Definition AnimationStyle_value (s : AnimationStyle) : string :=
  match s with
  | DISNEY_PIXAR => "Disney/Pixar 3D Style"
  | ANIME_SHINKAI => "Anime Makoto Shinkai Style"
  | CINEMATIC_REALISTIC => "Cinematic Realistic"
  | HAND_DRAWN_SKETCHY => "Hand-drawn Sketchy"
  | CLAYMATION => "Claymation / Stop Motion"
  | CYBERPUNK => "Cyberpunk / Sci-Fi 3D"
  end.

(** A value as [JSON.parse] returns it.  An object lists its properties in
    enumeration order.  A number is integral: the only number the program
    asks for is the scene number, requested as [Type.INTEGER]. *)
Inductive JSON :=
  | JNull
  | JBool (b : bool)
  | JNumber (n : Z)
  | JString (s : string)
  | JArray (items : list JSON)
  | JObject (props : list (string * JSON)).

(** What a JavaScript computation can throw or reject with. *)
Inductive error :=
  | SyntaxError
  | TypeError
  | Error (message : string)
  | Rejected (reason : string).

Inductive outcome (A : Type) :=
  | Returned (a : A)
  | Thrown (e : error).
Arguments Returned {A} a.
Arguments Thrown {A} e.

(** [interface Character]. *)
Record Character := {
  character_id : string;
  character_name : string;
  description : string;
  features : string;
  personality : option string
}.

(** [interface Scene]. *)
Record Scene := {
  scene_id : string;
  sceneNumber : Z;
  script : string;
  visualPrompt : string;
  duration : string;
  generatedImageUrl : option string;
  isGeneratingImage : option bool
}.

(** [interface Project].  The character list holds what [JSON.parse] gave:
    both the default characters and the imported ones enter unvalidated. *)
Record Project := {
  project_id : string;
  project_name : string;
  project_type : VideoType;
  style : AnimationStyle;
  createdAt : Z;
  characters : list JSON;
  scenes : list Scene;
  storyIdea : string
}.

(** [INITIAL_CHARACTERS_JSON], line by line. *)
Definition INITIAL_CHARACTERS_JSON : string :=
  let q := Js.dq in
  let nl := Js.nl in
  "{" ++ nl ++
  "  " ++ q ++ "characters" ++ q ++ ": [" ++ nl ++
  "    {" ++ nl ++
  "      " ++ q ++ "id" ++ q ++ ": " ++ q ++ "char_bella" ++ q ++ "," ++ nl ++
  "      " ++ q ++ "name" ++ q ++ ": " ++ q ++ "Bella" ++ q ++ "," ++ nl ++
  "      " ++ q ++ "description" ++ q ++ ": " ++ q ++
      "The glamorous older sister. Adult female, tall." ++ q ++ "," ++ nl ++
  "      " ++ q ++ "features" ++ q ++ ": " ++ q ++
      "Long purple braid, perfect makeup, sparkling outfits." ++ q ++ nl ++
  "    }," ++ nl ++
  "    {" ++ nl ++
  "      " ++ q ++ "id" ++ q ++ ": " ++ q ++ "char_mia" ++ q ++ "," ++ nl ++
  "      " ++ q ++ "name" ++ q ++ ": " ++ q ++ "Mia" ++ q ++ "," ++ nl ++
  "      " ++ q ++ "description" ++ q ++ ": " ++ q ++
      "The cute toddler sister. Small, huge eyes, mischievous." ++ q ++ "," ++ nl ++
  "      " ++ q ++ "features" ++ q ++ ": " ++ q ++
      "High red ponytail, cute casual clothes." ++ q ++ nl ++
  "    }" ++ nl ++
  "  ]" ++ nl ++
  "}".

(* ------------------------------------------------------------------ *)
(** ** Values: property access, spread, truthiness *)
(* ------------------------------------------------------------------ *)

Module Value.

Fixpoint lookup (k : string) (props : list (string * JSON)) : option JSON :=
  match props with
  | [] => None
  | (k', v) :: rest => if String.eqb k' k then Some v else lookup k rest
  end.

(** [o[k] = v] on the property list of an object, for a name [k] that is
    not an array index: an existing property keeps its place, a new one
    goes last. *)
Fixpoint assign (k : string) (v : JSON) (props : list (string * JSON))
  : list (string * JSON) :=
  match props with
  | [] => [(k, v)]
  | (k', v') :: rest =>
      if String.eqb k' k then (k, v) :: rest else (k', v') :: assign k v rest
  end.

(** [v.k] for the two names the program reads off parsed data, [id] and
    [characters], which no prototype defines: reading off [null] throws,
    an object answers with its own property, any other value with
    [undefined] ([None]). *)
Definition get (v : JSON) (k : string) : outcome (option JSON) :=
  match v with
  | JNull => Thrown TypeError
  | JObject props => Returned (lookup k props)
  | _ => Returned None
  end.

(** [Array.isArray(v)], [v] possibly [undefined]. *)
Definition isArray (v : option JSON) : option (list JSON) :=
  match v with
  | Some (JArray items) => Some items
  | _ => None
  end.

Definition truthy (v : option JSON) : bool :=
  match v with
  | None => false
  | Some JNull => false
  | Some (JBool b) => b
  | Some (JNumber n) => negb (n =? 0)
  | Some (JString s) => Js.truthy_string s
  | Some (JArray _) => true
  | Some (JObject _) => true
  end.

Fixpoint index_props_from (i : nat) (items : list JSON) : list (string * JSON) :=
  match items with
  | [] => []
  | v :: rest => (Js.number_to_string (Z.of_nat i), v) :: index_props_from (S i) rest
  end.

Fixpoint chars_of (s : string) : list JSON :=
  match s with
  | EmptyString => []
  | String c rest => JString (String c EmptyString) :: chars_of rest
  end.

(** The own enumerable properties that [{...v}] copies. *)
Definition spread (v : JSON) : list (string * JSON) :=
  match v with
  | JObject props => props
  | JArray items => index_props_from 0 items
  | JString s => index_props_from 0 (chars_of s)
  | _ => []
  end.

(** [v !== s] for a string [s], [v] possibly [undefined]. *)
Definition strict_neq_string (v : option JSON) (s : string) : bool :=
  match v with
  | Some (JString s') => negb (String.eqb s' s)
  | _ => true
  end.

(** A [Character] as a value. *)
Definition of_Character (c : Character) : JSON :=
  JObject ([("id", JString (character_id c));
            ("name", JString (character_name c));
            ("description", JString (description c));
            ("features", JString (features c))]
           ++ match personality c with
              | Some p => [("personality", JString p)]
              | None => []
              end)%list.

End Value.

(* ------------------------------------------------------------------ *)
(** ** The platform and the computations that use it *)
(* ------------------------------------------------------------------ *)

(** The [responseSchema] objects of [@google/genai]. *)
Inductive Schema :=
  | ARRAY (items : Schema)
  | OBJECT (properties : list (string * Schema)) (required : list string)
  | INTEGER
  | STRING (description : option string) (enum : option (list string)).

(** The argument of [ai.models.generateContent]. *)
Record request := {
  model : string;
  contents : string;
  systemInstruction : option string;
  responseMimeType : option string;
  responseSchema : option Schema;
  imageConfig_aspectRatio : option string
}.

(** The parts of its answer that the program reads. *)
Record part := { inlineData : option string }.
Record content := { parts : option (list part) }.
Record candidate := { candidate_content : option content }.
Record response := {
  text : option string;
  candidates : option (list candidate)
}.

(** What the program takes from its environment. *)
Class Platform := {
  (** [process.env.API_KEY] *)
  API_KEY : option string;
  (** [JSON.parse]; [None] when it throws its [SyntaxError] *)
  JSON_parse : string -> option JSON;
  (** the value of the n-th call of [crypto.randomUUID()] *)
  randomUUID : nat -> string;
  (** the settlement of the n-th call of [ai.models.generateContent] *)
  generateContent : nat -> request -> outcome response
}.

(** What a run leaves behind: the requests sent to the remote model, in
    order, and how many identifiers were drawn. *)
Record World := {
  calls : list request;
  issued : nat
}.

(** The world after one more request. *)
Definition sent (w : World) (req : request) : World :=
  {| calls := (calls w ++ [req])%list; issued := issued w |}.

(** The world after [count] more identifiers. *)
Definition drawn (w : World) (count : nat) : World :=
  {| calls := calls w; issued := (issued w + count)%nat |}.

(** A computation reads and extends the world and returns or throws. *)
Definition M (A : Type) : Type := World -> outcome A * World.

Definition ret {A} (a : A) : M A := fun w => (Returned a, w).
Definition throw {A} (e : error) : M A := fun w => (Thrown e, w).
Definition bind {A B} (m : M A) (k : A -> M B) : M B :=
  fun w =>
    match m w with
    | (Returned a, w') => k a w'
    | (Thrown e, w') => (Thrown e, w')
    end.
Definition lift {A} (o : outcome A) : M A := fun w => (o, w).

Declare Scope js_scope.
Delimit Scope js_scope with js.
Notation "x <- m ;; k" := (bind m (fun x => k))
  (at level 100, m at next level, right associativity) : js_scope.
Notation "m ;;; k" := (bind m (fun _ => k))
  (at level 100, right associativity) : js_scope.
Open Scope js_scope.

(** [xs.map(f)] for a callback with effects: left to right, stopping at
    the first throw. *)
Fixpoint mapM {A B} (f : A -> M B) (xs : list A) : M (list B) :=
  match xs with
  | [] => ret []
  | x :: rest => y <- f x ;; ys <- mapM f rest ;; ret (y :: ys)
  end.

(** [sep]-joined strings: [xs.join(sep)]. *)
Fixpoint join (sep : string) (xs : list string) : string :=
  match xs with
  | [] => ""
  | [x] => x
  | x :: rest => x ++ sep ++ join sep rest
  end.

Section WithPlatform.
Context {platform : Platform}.

Definition parse (s : string) : M JSON :=
  match JSON_parse s with
  | Some v => ret v
  | None => throw SyntaxError
  end.

Definition crypto_randomUUID : M string :=
  fun w => (Returned (randomUUID (issued w)),
            {| calls := calls w; issued := S (issued w) |}).

Definition ai_models_generateContent (req : request) : M response :=
  fun w => (generateContent (List.length (calls w)) req,
            {| calls := (calls w ++ [req])%list; issued := issued w |}).

(** [parsed.map(f)] on a parsed value: only an array has a [map]. *)
Definition map_of (v : JSON) (f : JSON -> M JSON) : M (list JSON) :=
  match v with
  | JArray items => mapM f items
  | _ => throw TypeError
  end.

End WithPlatform.

(* ------------------------------------------------------------------ *)
(** ** services/geminiService.ts *)
(* ------------------------------------------------------------------ *)

Module Service.
Section Service.
Context {platform : Platform}.

(** The error [getClient] throws; the specification calls it
    MissingCredential. *)
Definition MissingCredential : error :=
  Error "API Key not found in environment variables".

(** The error [generateScenePreview] throws when no part carries an image. *)
Definition NoImage : error := Error "No image generated".

(** [getClient]: the client object carries nothing but the key, which
    [generateContent] of the platform already knows. *)
Definition getClient : M unit :=
  if negb (Js.truthy_opt API_KEY) then throw MissingCredential else ret tt.

Definition characterLine (c : Character) : string :=
  "- " ++ character_name c ++ ": " ++ description c ++ ". Visual features: "
  ++ features c ++ ". "
  ++ (if Js.truthy_opt (personality c)
      then "Personality: " ++ Js.or_else (personality c) "" else "").

Definition storySystemInstruction
  (characterContext : string) (style : AnimationStyle) (type : VideoType) : string :=
  let nl := Js.nl in
  "You are an expert animation director and screenwriter for YouTube." ++ nl ++
  "  Your task is to take a story idea and break it down into scenes." ++ nl ++
  "  " ++ nl ++
  "  Format Constraints:" ++ nl ++
  "  - Video Type: " ++ VideoType_value type ++ nl ++
  "  - Animation Style: " ++ AnimationStyle_value style ++ nl ++
  "  " ++ nl ++
  "  Characters Available:" ++ nl ++
  "  " ++ characterContext ++ nl ++
  "  " ++ nl ++
  "  Instructions:" ++ nl ++
  "  1. Create a compelling script suitable for the video type (fast-paced for Shorts, well-paced for Long)." ++ nl ++
  "  2. For 'visualPrompt', write a highly detailed image generation prompt. " ++ nl ++
  "     - IMPORTANT: You MUST inject the specific visual features of the characters (e.g., "
    ++ Js.dq ++ "Bella, a tall woman with long purple braid" ++ Js.dq
    ++ ") into the prompt every time the character appears so the image generator knows how to draw them." ++ nl ++
  "     - Include the art style (" ++ AnimationStyle_value style ++ ") in every visual prompt." ++ nl ++
  "     - Describe lighting, camera angle, and background." ++ nl ++
  "  " ++ nl ++
  "  Output MUST be a JSON array of objects.".

Definition sceneListSchema : Schema :=
  ARRAY (OBJECT
    [("sceneNumber", INTEGER);
     ("script", STRING (Some "The dialogue or voiceover text") None);
     ("visualPrompt", STRING (Some "Detailed prompt for video generation AI") None);
     ("duration", STRING (Some "Estimated duration e.g. '3s'") None)]
    ["sceneNumber"; "script"; "visualPrompt"; "duration"]).

(** [{ ...item, id: v }]. *)
Definition with_id (item : JSON) (v : JSON) : JSON :=
  JObject (Value.assign "id" v (Value.spread item)).

(** The callback of [parsed.map]: [{ ...item, id: crypto.randomUUID() }]. *)
Definition add_id (item : JSON) : M JSON :=
  id <- crypto_randomUUID ;; ret (with_id item (JString id)).

(** The request of [generateStoryScenes]. *)
Definition storyRequest
  (idea : string) (characters : list Character)
  (style : AnimationStyle) (type : VideoType) : request :=
  let characterContext := join Js.nl (map characterLine characters) in
  let systemInstruction := storySystemInstruction characterContext style type in
  {| model := "gemini-2.5-flash";
     contents := "Story Idea: " ++ idea;
     systemInstruction := Some systemInstruction;
     responseMimeType := Some "application/json";
     responseSchema := Some sceneListSchema;
     imageConfig_aspectRatio := None |}.

(** [generateStoryScenes].  The [catch] logs and rethrows, so the body's
    outcome is the function's. *)
Definition generateStoryScenes
  (idea : string) (characters : list Character)
  (style : AnimationStyle) (type : VideoType) : M (list JSON) :=
  getClient ;;;
  response <- ai_models_generateContent (storyRequest idea characters style type) ;;
  let jsonText := Js.or_else (text response) "[]" in
  parsed <- parse jsonText ;;
  map_of parsed add_id.

(** [response.candidates?.[0]?.content?.parts || []]. *)
Definition first_parts (r : response) : list part :=
  match candidates r with
  | Some (c :: _) =>
      match candidate_content c with
      | Some ct => match parts ct with Some ps => ps | None => [] end
      | None => []
      end
  | _ => []
  end.

(** The [for] loop of [generateScenePreview]: the first part with inline
    data decides. *)
Fixpoint first_image (ps : list part) : option string :=
  match ps with
  | [] => None
  | p :: rest =>
      match inlineData p with
      | Some data => Some ("data:image/png;base64," ++ data)
      | None => first_image rest
      end
  end.

(** The request of [generateScenePreview]. *)
Definition previewRequest (visualPrompt : string) : request :=
  {| model := "gemini-2.5-flash-image";
     contents := visualPrompt;
     systemInstruction := None;
     responseMimeType := None;
     responseSchema := None;
     imageConfig_aspectRatio := Some "16:9" |}.

(** [generateScenePreview]. *)
Definition generateScenePreview (visualPrompt : string) : M string :=
  getClient ;;;
  response <- ai_models_generateContent (previewRequest visualPrompt) ;;
  match first_image (first_parts response) with
  | Some uri => ret uri
  | None => throw NoImage
  end.

Definition AnimationStyle_values : list string :=
  map AnimationStyle_value
    [DISNEY_PIXAR; ANIME_SHINKAI; CINEMATIC_REALISTIC;
     HAND_DRAWN_SKETCHY; CLAYMATION; CYBERPUNK].

Definition VideoType_values : list string :=
  map VideoType_value [SHORT; LONG].

Definition ideaSystemInstruction : string :=
  let nl := Js.nl in
  "You are a YouTube creative strategist and trend analyst. " ++ nl ++
  "  Your goal is to brainstorm a high-potential, viral animation project idea." ++ nl ++
  "  " ++ nl ++
  "  Constraints:" ++ nl ++
  "  - Allowed Styles: " ++ join ", " AnimationStyle_values ++ nl ++
  "  - Allowed Types: " ++ join ", " VideoType_values ++ nl ++
  "  " ++ nl ++
  "  Instructions:" ++ nl ++
  "  1. Analyze current trends or use the provided topic to create a concept." ++ nl ++
  "  2. Create a catchy 'name' for the project." ++ nl ++
  "  3. Write a brief 'storyIdea' (plot summary)." ++ nl ++
  "  4. Select the best 'type' and 'style' from the allowed lists." ++ nl ++
  "  5. Create a set of unique 'characters' (2-4 characters) with detailed visual descriptions suitable for AI image generation.".

Definition ideaUserPrompt (topic : option string) : string :=
  if Js.truthy_opt topic
  then "Generate a project idea based on this topic: " ++ Js.dq
       ++ Js.or_else topic "" ++ Js.dq ++ "."
  else "Generate a trending, viral animation project idea (e.g., horror, comedy, parody, cute animals, or sci-fi).".

Definition projectIdeaSchema : Schema :=
  OBJECT
    [("name", STRING None None);
     ("storyIdea", STRING None None);
     ("type", STRING None (Some VideoType_values));
     ("style", STRING None (Some AnimationStyle_values));
     ("characters",
      ARRAY (OBJECT
        [("id", STRING None None);
         ("name", STRING None None);
         ("description", STRING None None);
         ("features", STRING None None);
         ("personality", STRING None None)]
        ["id"; "name"; "description"; "features"]))]
    ["name"; "storyIdea"; "type"; "style"; "characters"].

(** [{ ...c, id: c.id || crypto.randomUUID() }]. *)
Definition keep_or_assign_id (c : JSON) : M JSON :=
  cid <- lift (Value.get c "id") ;;
  match cid with
  | Some v =>
      if Value.truthy cid then ret (with_id c v)
      else id <- crypto_randomUUID ;; ret (with_id c (JString id))
  | None => id <- crypto_randomUUID ;; ret (with_id c (JString id))
  end.

(** [idea.characters = v] on a parsed value (a property set on a
    primitive is dropped). *)
Definition set_characters (idea : JSON) (v : JSON) : JSON :=
  match idea with
  | JObject props => JObject (Value.assign "characters" v props)
  | _ => idea
  end.

(** The request of [generateProjectIdea]. *)
Definition ideaRequest (topic : option string) : request :=
  {| model := "gemini-2.5-flash";
     contents := ideaUserPrompt topic;
     systemInstruction := Some ideaSystemInstruction;
     responseMimeType := Some "application/json";
     responseSchema := Some projectIdeaSchema;
     imageConfig_aspectRatio := None |}.

(** [generateProjectIdea]; the result is returned as parsed, by a cast. *)
Definition generateProjectIdea (topic : option string) : M JSON :=
  getClient ;;;
  response <- ai_models_generateContent (ideaRequest topic) ;;
  idea <- parse (Js.or_else (text response) "{}") ;;
  cs <- lift (Value.get idea "characters") ;;
  if Value.truthy cs then
    match cs with
    | Some v =>
        cs' <- map_of v keep_or_assign_id ;;
        ret (set_characters idea (JArray cs'))
    | None => ret idea
    end
  else ret idea.

End Service.
End Service.

(* ------------------------------------------------------------------ *)
(** ** components/CharacterManager.tsx *)
(* ------------------------------------------------------------------ *)

Module CharacterManager.
Section CharacterManager.
Context {platform : Platform}.

(** What a handler does to its surroundings: the list it hands to
    [onUpdate], the value it gives [setError], the text it alerts. *)
Record effects := {
  onUpdate : option (list JSON);
  setError : option (option string);
  alert : option string
}.

(** The two messages of [handleImportJson]; the specification calls them
    ParseError and SchemaError. *)
Definition ParseError : string := "Invalid JSON syntax.".
Definition SchemaError : string := "Invalid JSON format: missing 'characters' array.".

Definition failed (message : string) : effects :=
  {| onUpdate := None; setError := Some (Some message); alert := None |}.

(** [handleImportJson], with the component's [characters] and [jsonInput].
    The [catch] takes whatever the [try] block throws. *)
Definition handleImportJson (characters : list JSON) (jsonInput : string) : effects :=
  match JSON_parse jsonInput with
  | None => failed ParseError
  | Some parsed =>
      match Value.get parsed "characters" with
      | Thrown _ => failed ParseError
      | Returned cs =>
          match Value.isArray cs with
          | Some added =>
              {| onUpdate := Some (characters ++ added)%list;
                 setError := Some None;
                 alert := Some ("Successfully imported "
                                ++ Js.number_to_string (Z.of_nat (List.length added))
                                ++ " characters.") |}
          | None => failed SchemaError
          end
      end
  end.

(** [characters.filter(c => c.id !== id)]. *)
Fixpoint filter_other_ids (id : string) (characters : list JSON) : outcome (list JSON) :=
  match characters with
  | [] => Returned []
  | c :: rest =>
      match Value.get c "id" with
      | Thrown e => Thrown e
      | Returned cid =>
          match filter_other_ids id rest with
          | Thrown e => Thrown e
          | Returned kept =>
              Returned (if Value.strict_neq_string cid id then c :: kept else kept)
          end
      end
  end.

(** [removeCharacter]: the list handed to [onUpdate], or what was thrown
    before it got there. *)
Definition removeCharacter (characters : list JSON) (id : string) : outcome (list JSON) :=
  filter_other_ids id characters.

End CharacterManager.
End CharacterManager.

(* ------------------------------------------------------------------ *)
(** ** components/Storyboard.tsx *)
(* ------------------------------------------------------------------ *)

(** The archive under construction: [JSZip] keeps one entry per name, a
    later [file] call for a name replacing the earlier entry. *)
Module JSZip.

Record entry := { data : string; base64 : bool }.
Definition t := list (string * entry).

Definition empty : t := [].

Fixpoint file (name : string) (e : entry) (zip : t) : t :=
  match zip with
  | [] => [(name, e)]
  | (n, e') :: rest =>
      if String.eqb n name then (name, e) :: rest else (n, e') :: file name e rest
  end.

Definition names (zip : t) : list string := map fst zip.

End JSZip.

Module Storyboard.

Definition set_scenes (project : Project) (updatedScenes : list Scene) : Project :=
  {| project_id := project_id project;
     project_name := project_name project;
     project_type := project_type project;
     style := style project;
     createdAt := createdAt project;
     characters := characters project;
     scenes := updatedScenes;
     storyIdea := storyIdea project |}.

Definition set_visualPrompt (s : Scene) (v : string) : Scene :=
  {| scene_id := scene_id s;
     sceneNumber := sceneNumber s;
     script := script s;
     visualPrompt := v;
     duration := duration s;
     generatedImageUrl := generatedImageUrl s;
     isGeneratingImage := isGeneratingImage s |}.

Definition set_generatedImageUrl (s : Scene) (url : string) : Scene :=
  {| scene_id := scene_id s;
     sceneNumber := sceneNumber s;
     script := script s;
     visualPrompt := visualPrompt s;
     duration := duration s;
     generatedImageUrl := Some url;
     isGeneratingImage := isGeneratingImage s |}.

(** The [updatedScenes] of [handleSavePrompt]. *)
Definition editScenePrompt (scenes : list Scene) (sceneId editPromptValue : string)
  : list Scene :=
  map (fun s => if String.eqb (scene_id s) sceneId
                then set_visualPrompt s editPromptValue else s) scenes.

(** [handleSavePrompt]: the project handed to [onUpdateProject]. *)
Definition handleSavePrompt (project : Project) (editPromptValue sceneId : string)
  : Project :=
  set_scenes project (editScenePrompt (scenes project) sceneId editPromptValue).

(** The [updatedScenes] of [handleGenerateImage]. *)
Definition setSceneImage (scenes : list Scene) (sceneId base64Image : string)
  : list Scene :=
  map (fun s => if String.eqb (scene_id s) sceneId
                then set_generatedImageUrl s base64Image else s) scenes.

(** [handleGenerateImage]: the project handed to [onUpdateProject], or
    [None] when the [catch] alerts instead. *)
Definition handleGenerateImage {platform : Platform}
  (project : Project) (scene : Scene) : M (option Project) :=
  fun w =>
    match Service.generateScenePreview (visualPrompt scene) w with
    | (Returned base64Image, w') =>
        (Returned (Some (set_scenes project
                           (setSceneImage (scenes project) (scene_id scene) base64Image))),
         w')
    | (Thrown _, w') => (Returned None, w')
    end.

Definition imageName (scene : Scene) : string :=
  "scene_" ++ Js.padStart (Js.number_to_string (sceneNumber scene)) 3 "0" ++ ".png".

Definition NotGeneratedYet : string := "[Not Generated Yet]".

(** The text one scene adds to [scriptContent]. *)
Definition sceneText (scene : Scene) : string :=
  "SCENE " ++ Js.number_to_string (sceneNumber scene) ++ Js.nl
  ++ "Duration: " ++ duration scene ++ Js.nl
  ++ "Script: " ++ Js.dq ++ script scene ++ Js.dq ++ Js.nl
  ++ "Visual Prompt: " ++ visualPrompt scene ++ Js.nl
  ++ "Generated Image File: "
  ++ (if Js.truthy_opt (generatedImageUrl scene)
      then imageName scene else NotGeneratedYet) ++ Js.nl
  ++ "------------------------------------------------" ++ Js.nl ++ Js.nl.

(** The archive after one scene: [generatedImageUrl.split(',')[1]], when
    truthy, is filed under the image name. *)
Definition sceneFile (scene : Scene) (zip : JSZip.t) : JSZip.t :=
  match generatedImageUrl scene with
  | Some url =>
      if Js.truthy_string url then
        match nth_error (Js.split "," url) 1 with
        | Some base64Data =>
            if Js.truthy_string base64Data
            then JSZip.file (imageName scene)
                            {| JSZip.data := base64Data; JSZip.base64 := true |} zip
            else zip
        | None => zip
        end
      else zip
  | None => zip
  end.

(** One round of the [forEach] of [handleDownloadAssets]. *)
Definition exportScene (acc : JSZip.t * string) (scene : Scene) : JSZip.t * string :=
  let '(zip, scriptContent) := acc in
  (sceneFile scene zip, scriptContent ++ sceneText scene).

Definition scriptHeader (project : Project) : string :=
  "Project: " ++ project_name project ++ Js.nl
  ++ "Style: " ++ AnimationStyle_value (style project) ++ Js.nl
  ++ "Type: " ++ VideoType_value (project_type project) ++ Js.nl
  ++ "Story Idea: " ++ storyIdea project ++ Js.nl ++ Js.nl
  ++ "================================================" ++ Js.nl ++ Js.nl.

Definition manifestName : string := "script_and_prompts.txt".

(** What the download is made of. *)
Record export := {
  archive : JSZip.t;
  download : string
}.

(** [handleDownloadAssets], up to the archive it asks [JSZip] to generate
    and the name it gives the download. *)
Definition handleDownloadAssets (project : Project) : export :=
  let '(zip, scriptContent) :=
    fold_left exportScene (scenes project) (JSZip.empty, scriptHeader project) in
  {| archive := JSZip.file manifestName
                  {| JSZip.data := scriptContent; JSZip.base64 := false |} zip;
     download := Js.toLowerCase (Js.replace_non_alnum "_" (project_name project))
                 ++ "_assets.zip" |}.

(** The manifest of an export: the text filed under [manifestName]. *)
Definition manifest (e : export) : option string :=
  match find (fun ne => String.eqb (fst ne) manifestName) (archive e) with
  | Some (_, f) => Some (JSZip.data f)
  | None => None
  end.

End Storyboard.

(* ------------------------------------------------------------------ *)
(** ** App.tsx *)
(* ------------------------------------------------------------------ *)

Module App.

Inductive View := dashboard | create | workspace.

(** [JSON.parse(INITIAL_CHARACTERS_JSON).characters]: the text is a
    constant of the program, and this is the value it denotes. *)
Definition INITIAL_CHARACTERS : list JSON :=
  [ JObject [("id", JString "char_bella");
             ("name", JString "Bella");
             ("description", JString "The glamorous older sister. Adult female, tall.");
             ("features", JString "Long purple braid, perfect makeup, sparkling outfits.")];
    JObject [("id", JString "char_mia");
             ("name", JString "Mia");
             ("description", JString "The cute toddler sister. Small, huge eyes, mischievous.");
             ("features", JString "High red ponytail, cute casual clothes.")] ].

(** The state of the [App] component that the three store handlers read
    or write, and the slot of [localStorage] under [STORAGE_KEY], kept as
    the list that [saveProjectsToStorage] last serialised. *)
Record state := {
  projects : list Project;
  currentProject : option Project;
  view : View;
  newProjectName : string;
  newProjectType : VideoType;
  newProjectStyle : AnimationStyle;
  form_storyIdea : string;
  customCharacters : option (list JSON);
  recommendedIdea : option JSON;
  brainstormTopic : string;
  storage : option (list Project)
}.

(** [handleCreateProject]; [now] is the reading of [Date.now()]. *)
Definition handleCreateProject {platform : Platform} (now : Z) (s : state) : M state :=
  let initialChars :=
    match customCharacters s with
    | Some cs => cs
    | None => INITIAL_CHARACTERS
    end in
  id <- crypto_randomUUID ;;
  let newProject :=
    {| project_id := id;
       project_name := Js.or_default (newProjectName s) "Untitled Project";
       project_type := newProjectType s;
       style := newProjectStyle s;
       createdAt := now;
       characters := initialChars;
       scenes := [];
       storyIdea := form_storyIdea s |} in
  let updated := newProject :: projects s in
  ret {| projects := updated;
         currentProject := Some newProject;
         view := workspace;
         newProjectName := "";
         newProjectType := newProjectType s;
         newProjectStyle := newProjectStyle s;
         form_storyIdea := "";
         customCharacters := None;
         recommendedIdea := None;
         brainstormTopic := "";
         storage := Some updated |}.

(** [updateProject]. *)
Definition updateProject (updated : Project) (s : state) : state :=
  let newProjects :=
    map (fun p => if String.eqb (project_id p) (project_id updated) then updated else p)
        (projects s) in
  {| projects := newProjects;
     currentProject := Some updated;
     view := view s;
     newProjectName := newProjectName s;
     newProjectType := newProjectType s;
     newProjectStyle := newProjectStyle s;
     form_storyIdea := form_storyIdea s;
     customCharacters := customCharacters s;
     recommendedIdea := recommendedIdea s;
     brainstormTopic := brainstormTopic s;
     storage := Some newProjects |}.

(** [currentProject?.id === id]. *)
Definition is_current (s : state) (id : string) : bool :=
  match currentProject s with
  | Some p => String.eqb (project_id p) id
  | None => false
  end.

(** [handleDeleteProject]; [confirmed] is the answer of the [confirm]
    dialog. *)
Definition handleDeleteProject (confirmed : bool) (id : string) (s : state) : state :=
  if negb confirmed then s
  else
    let newProjects :=
      filter (fun p => negb (String.eqb (project_id p) id)) (projects s) in
    {| projects := newProjects;
       currentProject := if is_current s id then None else currentProject s;
       view := if is_current s id then dashboard else view s;
       newProjectName := newProjectName s;
       newProjectType := newProjectType s;
       newProjectStyle := newProjectStyle s;
       form_storyIdea := form_storyIdea s;
       customCharacters := customCharacters s;
       recommendedIdea := recommendedIdea s;
       brainstormTopic := brainstormTopic s;
       storage := Some newProjects |}.

End App.

(* ------------------------------------------------------------------ *)
(** ** What the specification says, in its own words *)
(* ------------------------------------------------------------------ *)

Module Spec.

(** Scenes in scene-number order: a stable insertion sort on the number. *)
Fixpoint insert_by_number (s : Scene) (sorted : list Scene) : list Scene :=
  match sorted with
  | [] => [s]
  | s' :: rest =>
      if sceneNumber s <=? sceneNumber s' then s :: sorted
      else s' :: insert_by_number s rest
  end.

Fixpoint sort_by_number (scenes : list Scene) : list Scene :=
  match scenes with
  | [] => []
  | s :: rest => insert_by_number s (sort_by_number rest)
  end.

(** The manifest as the specification describes it: the metadata, then
    one block per scene in scene-number order. *)
Definition manifest_in_number_order (project : Project) : string :=
  Storyboard.scriptHeader project
  ++ String.concat "" (map Storyboard.sceneText (sort_by_number (scenes project))).

(** Ascending scene-number order of a scene list. *)
Definition ascending (scenes : list Scene) : Prop :=
  Sorted (fun a b => sceneNumber a <= sceneNumber b) scenes.

(** A response record with an identifier added. *)
Definition record_with_id (props : list (string * JSON)) (id : string) : JSON :=
  JObject (Value.assign "id" (JString id) props).

(** The own property [k] of a returned scene. *)
Definition property (k : string) (scene : JSON) : option JSON :=
  match scene with
  | JObject props => Value.lookup k props
  | _ => None
  end.

(** The identifier a returned scene carries. *)
Definition id_of (scene : JSON) : option JSON := property "id" scene.

(** The identifiers drawn by [count] calls of [crypto.randomUUID()] after
    [drawn] earlier ones. *)
Definition draws {platform : Platform} (drawn count : nat) : list string :=
  map randomUUID (seq drawn count).

(** The decimal digit of a number below ten. *)
Definition digit (d : Z) : ascii := ascii_of_nat (48 + Z.to_nat d).

(** A number written with exactly three decimal digits. *)
Definition three_digits (n : Z) : string :=
  String (digit (n / 100))
    (String (digit ((n / 10) mod 10))
       (String (digit (n mod 10)) EmptyString)).

(** [scene_{number:03d}.png]. *)
Definition image_filename (n : Z) : string :=
  "scene_" ++ three_digits n ++ ".png".

End Spec.

(* ------------------------------------------------------------------ *)
(** ** A platform to run the program on *)
(* ------------------------------------------------------------------ *)

(** A reader for a fragment of JSON: [null], [true], [false], integers,
    strings without escapes, arrays and objects, with white space between
    the tokens.  It answers [None] on every other text.  The examples
    run the program with it in the place of [JSON.parse]. *)
Module Reader.

Definition quote : ascii := ascii_of_nat 34.
Definition backslash : ascii := ascii_of_nat 92.

Definition is_space (c : ascii) : bool :=
  let n := nat_of_ascii c in
  ((n =? 32) || (n =? 9) || (n =? 10) || (n =? 13))%nat.

Fixpoint skip (s : string) : string :=
  match s with
  | String c rest => if is_space c then skip rest else s
  | EmptyString => EmptyString
  end.

Fixpoint strip (prefix s : string) : option string :=
  match prefix, s with
  | EmptyString, _ => Some s
  | String p prefix', String c rest =>
      if Ascii.eqb p c then strip prefix' rest else None
  | String _ _, EmptyString => None
  end.

(** The characters up to the closing quote, and what follows it. *)
Fixpoint characters_of_string (s : string) : option (string * string) :=
  match s with
  | EmptyString => None
  | String c rest =>
      if Ascii.eqb c quote then Some (EmptyString, rest)
      else if Ascii.eqb c backslash || (nat_of_ascii c <? 32)%nat then None
      else match characters_of_string rest with
           | Some (body, rest') => Some (String c body, rest')
           | None => None
           end
  end.

Fixpoint digits (acc : Z) (s : string) : Z * string :=
  match s with
  | String c rest =>
      if Js.is_digit c
      then digits (10 * acc + Z.of_nat (nat_of_ascii c - 48)) rest
      else (acc, s)
  | EmptyString => (acc, EmptyString)
  end.

Definition ends_integer (s : string) : bool :=
  match s with
  | String c _ =>
      negb (Js.is_digit c || Ascii.eqb c "." || Ascii.eqb c "e" || Ascii.eqb c "E")
  | EmptyString => true
  end.

Definition natural (s : string) : option (Z * string) :=
  match s with
  | String c rest =>
      if Ascii.eqb c "0" then
        if ends_integer rest then Some (0, rest) else None
      else if Js.is_digit c then
        let '(n, rest') := digits 0 s in
        if ends_integer rest' then Some (n, rest') else None
      else None
  | EmptyString => None
  end.

Definition integer (s : string) : option (Z * string) :=
  match s with
  | String c rest =>
      if Ascii.eqb c "-" then
        match natural rest with
        | Some (n, rest') => Some (- n, rest')
        | None => None
        end
      else natural s
  | EmptyString => None
  end.

Fixpoint value (fuel : nat) (s : string) : option (JSON * string) :=
  match fuel with
  | O => None
  | S fuel' =>
      match skip s with
      | EmptyString => None
      | String c rest as s' =>
          if Ascii.eqb c "n" then option_map (pair JNull) (strip "null" s')
          else if Ascii.eqb c "t" then option_map (pair (JBool true)) (strip "true" s')
          else if Ascii.eqb c "f" then option_map (pair (JBool false)) (strip "false" s')
          else if Ascii.eqb c quote then
            match characters_of_string rest with
            | Some (body, rest') => Some (JString body, rest')
            | None => None
            end
          else if Ascii.eqb c "[" then
            match skip rest with
            | String "]" rest' => Some (JArray [], rest')
            | _ =>
                match elements fuel' rest with
                | Some (items, rest') => Some (JArray items, rest')
                | None => None
                end
            end
          else if Ascii.eqb c "{" then
            match skip rest with
            | String "}" rest' => Some (JObject [], rest')
            | _ =>
                match members fuel' [] rest with
                | Some (props, rest') => Some (JObject props, rest')
                | None => None
                end
            end
          else
            match integer s' with
            | Some (n, rest') => Some (JNumber n, rest')
            | None => None
            end
      end
  end

with elements (fuel : nat) (s : string) : option (list JSON * string) :=
  match fuel with
  | O => None
  | S fuel' =>
      match value fuel' s with
      | Some (v, rest) =>
          match skip rest with
          | String "]" rest' => Some ([v], rest')
          | String "," rest' =>
              match elements fuel' rest' with
              | Some (vs, rest'') => Some (v :: vs, rest'')
              | None => None
              end
          | _ => None
          end
      | None => None
      end
  end

with members (fuel : nat) (props : list (string * JSON)) (s : string)
  : option (list (string * JSON) * string) :=
  match fuel with
  | O => None
  | S fuel' =>
      match skip s with
      | String c rest =>
          if Ascii.eqb c quote then
            match characters_of_string rest with
            | Some (key, rest') =>
                match skip rest' with
                | String ":" rest'' =>
                    match value fuel' rest'' with
                    | Some (v, rest3) =>
                        let props' := Value.assign key v props in
                        match skip rest3 with
                        | String "}" rest4 => Some (props', rest4)
                        | String "," rest4 => members fuel' props' rest4
                        | _ => None
                        end
                    | None => None
                    end
                | _ => None
                end
            | None => None
            end
          else None
      | EmptyString => None
      end
  end.

Definition read (s : string) : option JSON :=
  match value (2 * String.length s + 2) s with
  | Some (v, rest) =>
      match skip rest with
      | EmptyString => Some v
      | _ => None
      end
  | None => None
  end.

End Reader.

(** Sample data and sample platforms. *)
Module Sample.

(** Identifiers in unary: the n-th draw is [n] times the letter u after
    the prefix. *)
Fixpoint unary (n : nat) : string :=
  match n with
  | O => EmptyString
  | S n' => String "u" (unary n')
  end.

Definition uuid (n : nat) : string := "id-" ++ unary n.

(** A platform that holds the key [key] and whose remote model settles
    every call with [reply]. *)
Definition platform_with (key : option string) (reply : outcome response) : Platform :=
  {| API_KEY := key;
     JSON_parse := Reader.read;
     randomUUID := uuid;
     generateContent := fun _ _ => reply |}.

Definition says (t : option string) : outcome response :=
  Returned {| text := t; candidates := None |}.

(** Two scene records, as the remote model writes them. *)
Definition two_scenes_text : string :=
  let q := Js.dq in
  "[{" ++ q ++ "sceneNumber" ++ q ++ ": 1, "
       ++ q ++ "script" ++ q ++ ": " ++ q ++ "Hello" ++ q ++ ", "
       ++ q ++ "visualPrompt" ++ q ++ ": " ++ q ++ "A cat, Claymation" ++ q ++ ", "
       ++ q ++ "duration" ++ q ++ ": " ++ q ++ "3s" ++ q ++ "}, "
  ++ "{" ++ q ++ "sceneNumber" ++ q ++ ": 2, "
       ++ q ++ "script" ++ q ++ ": " ++ q ++ "Bye" ++ q ++ ", "
       ++ q ++ "visualPrompt" ++ q ++ ": " ++ q ++ "A dog, Claymation" ++ q ++ ", "
       ++ q ++ "duration" ++ q ++ ": " ++ q ++ "4s" ++ q ++ "}]".

Definition two_scenes : list (list (string * JSON)) :=
  [ [("sceneNumber", JNumber 1); ("script", JString "Hello");
     ("visualPrompt", JString "A cat, Claymation"); ("duration", JString "3s")];
    [("sceneNumber", JNumber 2); ("script", JString "Bye");
     ("visualPrompt", JString "A dog, Claymation"); ("duration", JString "4s")] ].

Definition keyed : Platform := platform_with (Some "secret") (says (Some two_scenes_text)).
Definition keyless : Platform := platform_with None (says (Some two_scenes_text)).
Definition garbled : Platform := platform_with (Some "secret") (says (Some "Sorry, I cannot.")).
Definition silent : Platform := platform_with (Some "secret") (says None).

Definition start : World := {| calls := []; issued := 0 |}.

Definition bella : Character :=
  {| character_id := "char_bella";
     character_name := "Bella";
     description := "The glamorous older sister. Adult female, tall.";
     features := "Long purple braid, perfect makeup, sparkling outfits.";
     personality := None |}.

Definition mia : Character :=
  {| character_id := "char_mia";
     character_name := "Mia";
     description := "The cute toddler sister. Small, huge eyes, mischievous.";
     features := "High red ponytail, cute casual clothes.";
     personality := Some "Mischievous" |}.

Definition scene (id : string) (n : Z) (image : option string) : Scene :=
  {| scene_id := id;
     sceneNumber := n;
     script := "Line " ++ id;
     visualPrompt := "Prompt " ++ id;
     duration := "3s";
     generatedImageUrl := image;
     isGeneratingImage := None |}.

Definition first : Scene := scene "a" 1 None.
Definition second : Scene := scene "b" 2 (Some "data:image/png;base64,AAAA").
Definition bare : Scene := scene "c" 3 (Some "AAAA").

Definition project_of (scenes : list Scene) : Project :=
  {| project_id := "p";
     project_name := "Test Project";
     project_type := SHORT;
     style := DISNEY_PIXAR;
     createdAt := 0;
     characters := App.INITIAL_CHARACTERS;
     scenes := scenes;
     storyIdea := "" |}.

Definition in_order : Project := project_of [first; second].
Definition reversed : Project := project_of [second; first].

Definition store (projects : list Project) : App.state :=
  {| App.projects := projects;
     App.currentProject := None;
     App.view := App.create;
     App.newProjectName := "Test";
     App.newProjectType := SHORT;
     App.newProjectStyle := DISNEY_PIXAR;
     App.form_storyIdea := "";
     App.customCharacters := None;
     App.recommendedIdea := None;
     App.brainstormTopic := "";
     App.storage := Some projects |}.

End Sample.

(* ------------------------------------------------------------------ *)
(** ** The handlers around the store handlers *)
(* ------------------------------------------------------------------ *)

(** The prompt editor of [Storyboard]: [editingSceneId], [editPromptValue]
    and the two handlers that open and close it. *)
Module Editor.

Record state := {
  editingSceneId : option string;
  editPromptValue : string
}.

(** [handleEditClick]. *)
Definition handleEditClick (scene : Scene) : state :=
  {| editingSceneId := Some (scene_id scene);
     editPromptValue := visualPrompt scene |}.

(** The [onChange] of the editor's text area. *)
Definition onChange (value : string) (e : state) : state :=
  {| editingSceneId := editingSceneId e; editPromptValue := value |}.

(** [handleSavePrompt] with the editor's state: the project handed to
    [onUpdateProject] and the editor closed. *)
Definition handleSavePrompt (project : Project) (e : state) (sceneId : string)
  : Project * state :=
  (Storyboard.handleSavePrompt project (editPromptValue e) sceneId,
   {| editingSceneId := None; editPromptValue := editPromptValue e |}).

End Editor.

(** Reading the archive of an export. *)
Module Archive.

(** The entry filed under [name], if any. *)
Definition entry_of (name : string) (zip : JSZip.t) : option JSZip.entry :=
  match find (fun ne => String.eqb (fst ne) name) zip with
  | Some (_, e) => Some e
  | None => None
  end.

(** The [base64Data] of a scene that passes both tests of the export
    loop: a truthy [generatedImageUrl] with a truthy second
    comma-delimited part. *)
Definition payload (scene : Scene) : option string :=
  match generatedImageUrl scene with
  | Some url =>
      if Js.truthy_string url then
        match nth_error (Js.split "," url) 1 with
        | Some base64Data =>
            if Js.truthy_string base64Data then Some base64Data else None
        | None => None
        end
      else None
  | None => None
  end.

(** The characters a download's stem is made of. *)
Definition safe (c : ascii) : bool :=
  Js.is_digit c || Js.is_lower c || Ascii.eqb c "_".

Fixpoint all_safe (s : string) : bool :=
  match s with
  | EmptyString => true
  | String c rest => safe c && all_safe rest
  end.

End Archive.

(** The dashboard and the workspace of [App]: how the components are
    wired to [updateProject].  The workspace, and so each of its handlers,
    exists only while there is a current project. *)
Module Workspace.

Definition set_characters (p : Project) (chars : list JSON) : Project :=
  {| project_id := project_id p;
     project_name := project_name p;
     project_type := project_type p;
     style := style p;
     createdAt := createdAt p;
     characters := chars;
     scenes := scenes p;
     storyIdea := storyIdea p |}.

Definition set_storyIdea (p : Project) (idea : string) : Project :=
  {| project_id := project_id p;
     project_name := project_name p;
     project_type := project_type p;
     style := style p;
     createdAt := createdAt p;
     characters := characters p;
     scenes := scenes p;
     storyIdea := idea |}.

(** [onSelect] of a [ProjectCard]. *)
Definition onSelect (proj : Project) (s : App.state) : App.state :=
  {| App.projects := App.projects s;
     App.currentProject := Some proj;
     App.view := App.workspace;
     App.newProjectName := App.newProjectName s;
     App.newProjectType := App.newProjectType s;
     App.newProjectStyle := App.newProjectStyle s;
     App.form_storyIdea := App.form_storyIdea s;
     App.customCharacters := App.customCharacters s;
     App.recommendedIdea := App.recommendedIdea s;
     App.brainstormTopic := App.brainstormTopic s;
     App.storage := App.storage s |}.

(** [updateProject({ ...currentProject, ... })]. *)
Definition update_current (change : Project -> Project) (s : App.state) : App.state :=
  match App.currentProject s with
  | Some current => App.updateProject (change current) s
  | None => s
  end.

(** The [onChange] of the story plot. *)
Definition onStoryIdeaChange (value : string) (s : App.state) : App.state :=
  update_current (fun current => set_storyIdea current value) s.

(** The [onUpdate] given to [CharacterManager]. *)
Definition onUpdate (chars : list JSON) (s : App.state) : App.state :=
  update_current (fun current => set_characters current chars) s.

(** The import button: [CharacterManager] runs on
    [currentProject.characters] and reports through [onUpdate]. *)
Definition importJson {platform : Platform} (jsonInput : string) (s : App.state)
  : App.state :=
  match App.currentProject s with
  | Some current =>
      match CharacterManager.onUpdate
              (CharacterManager.handleImportJson (characters current) jsonInput) with
      | Some chars => onUpdate chars s
      | None => s
      end
  | None => s
  end.

(** The remove button of a character card. *)
Definition removeCharacter (id : string) (s : App.state) : outcome App.state :=
  match App.currentProject s with
  | Some current =>
      match CharacterManager.removeCharacter (characters current) id with
      | Returned chars => Returned (onUpdate chars s)
      | Thrown e => Thrown e
      end
  | None => Returned s
  end.

(** The save button of the prompt editor: [Storyboard] runs on
    [currentProject] and reports through [updateProject]. *)
Definition savePrompt (editPromptValue sceneId : string) (s : App.state) : App.state :=
  update_current
    (fun current => Storyboard.handleSavePrompt current editPromptValue sceneId) s.

(** The generate button of a scene card. *)
Definition generateImage {platform : Platform} (scene : Scene) (s : App.state)
  : M App.state :=
  match App.currentProject s with
  | Some current =>
      fun w =>
        match Storyboard.handleGenerateImage current scene w with
        | (Returned (Some updated), w') => (Returned (App.updateProject updated s), w')
        | (Returned None, w') => (Returned s, w')
        | (Thrown e, w') => (Thrown e, w')
        end
  | None => ret s
  end.

End Workspace.

(** The brainstorm box of the create wizard. *)
Module Wizard.

Record state := {
  app : App.state;
  isBrainstorming : bool
}.




End Wizard.

(** What the store handlers keep. *)
Module Invariant.

(** The stored snapshot is the project list. *)
Definition saved (s : App.state) : Prop :=
  App.storage s = Some (App.projects s).

(** The current project, if any, is one of the store. *)
Definition current_in_store (s : App.state) : Prop :=
  forall current, App.currentProject s = Some current -> In current (App.projects s).

(** No two projects of the store share an identifier. *)
Definition distinct_ids (s : App.state) : Prop :=
  NoDup (map project_id (App.projects s)).

End Invariant.

(* ================================================================== *)
(** * Properties *)
(* ================================================================== *)

(** ** The primitives on small inputs *)

Example number_to_string_7 : Js.number_to_string 7 = "7".
Proof. reflexivity. Qed.
Example number_to_string_0 : Js.number_to_string 0 = "0".
Proof. reflexivity. Qed.
Example number_to_string_neg : Js.number_to_string (-12) = "-12".
Proof. reflexivity. Qed.
Example padStart_7 : Js.padStart "7" 3 "0" = "007".
Proof. reflexivity. Qed.
Example padStart_1234 : Js.padStart "1234" 3 "0" = "1234".
Proof. reflexivity. Qed.
Example padStart_cycle : Js.padStart "x" 6 "ab" = "ababax".
Proof. reflexivity. Qed.
Example split_data_uri :
  Js.split "," "data:image/png;base64,AAAA" = ["data:image/png;base64"; "AAAA"].
Proof. reflexivity. Qed.
Example split_no_comma : Js.split "," "AAAA" = ["AAAA"].
Proof. reflexivity. Qed.
Example split_trailing : Js.split "," "AAAA," = ["AAAA"; ""].
Proof. reflexivity. Qed.

Example reader_reads_initial_characters :
  Reader.read INITIAL_CHARACTERS_JSON
  = Some (JObject [("characters", JArray App.INITIAL_CHARACTERS)]).
Proof. vm_compute. reflexivity. Qed.

Example reader_rejects_prose : Reader.read "Sorry, I cannot." = None.
Proof. vm_compute. reflexivity. Qed.

Example export_of_two_scenes :
  JSZip.names (Storyboard.archive (Storyboard.handleDownloadAssets Sample.in_order))
  = ["scene_002.png"; "script_and_prompts.txt"]
  /\ Storyboard.download (Storyboard.handleDownloadAssets Sample.in_order)
     = "test_project_assets.zip".
Proof. split; reflexivity. Qed.

Example create_on_an_empty_store :
  match @App.handleCreateProject Sample.keyed 1700000000000 (Sample.store []) Sample.start with
  | (Returned s, w) =>
      map project_name (App.projects s) = ["Test"]
      /\ map characters (App.projects s) = [App.INITIAL_CHARACTERS]
      /\ App.view s = App.workspace
      /\ issued w = 1%nat
  | (Thrown _, _) => False
  end.
Proof. cbn. repeat split. Qed.

Example import_of_a_number :
  @CharacterManager.handleImportJson Sample.keyed App.INITIAL_CHARACTERS "5"
  = CharacterManager.failed CharacterManager.SchemaError.
Proof. vm_compute. reflexivity. Qed.

Example import_of_prose :
  @CharacterManager.handleImportJson Sample.keyed App.INITIAL_CHARACTERS "characters: none"
  = CharacterManager.failed CharacterManager.ParseError.
Proof. vm_compute. reflexivity. Qed.

(** ** Strings and lists *)

Lemma append_assoc (a b c : string) : (a ++ b) ++ c = a ++ (b ++ c).
Proof.
  induction a as [|ch a IH]; simpl.
  - reflexivity.
  - now rewrite IH.
Qed.

Lemma append_empty_r (a : string) : a ++ "" = a.
Proof.
  induction a as [|ch a IH]; simpl; [reflexivity | now rewrite IH].
Qed.

Lemma concat_app (xs ys : list string) :
  String.concat "" (xs ++ ys)%list = String.concat "" xs ++ String.concat "" ys.
Proof.
  induction xs as [|x xs IH]; simpl.
  - reflexivity.
  - destruct xs as [|x' xs]; simpl in *.
    + destruct ys; simpl; [now rewrite append_empty_r | reflexivity].
    + rewrite IH. now rewrite !append_assoc.
Qed.

Lemma concat_cons (x : string) (xs : list string) :
  String.concat "" (x :: xs) = x ++ String.concat "" xs.
Proof. exact (concat_app [x] xs). Qed.

(** ** The export *)

Section AssetExport.
Import Storyboard.

(** The archive entries never touch the text, and the text grows by one
    block per scene, in list order. *)
Lemma forEach_scriptContent (scenes : list Scene) (zip : JSZip.t) (content : string) :
  snd (fold_left exportScene scenes (zip, content))
  = content ++ String.concat "" (map sceneText scenes).
Proof.
  revert zip content.
  induction scenes as [|s scenes IH]; intros zip content.
  - simpl. now rewrite append_empty_r.
  - cbn [fold_left map]. unfold exportScene at 2.
    rewrite IH, concat_cons. apply append_assoc.
Qed.

Lemma find_file (name : string) (e : JSZip.entry) (zip : JSZip.t) :
  find (fun ne => String.eqb (fst ne) name) (JSZip.file name e zip) = Some (name, e).
Proof.
  induction zip as [|[n e'] zip IH]; simpl.
  - now rewrite String.eqb_refl.
  - destruct (String.eqb n name) eqn:E; simpl.
    + now rewrite String.eqb_refl.
    + now rewrite E.
Qed.

Lemma manifest_text (project : Project) :
  manifest (handleDownloadAssets project)
  = Some (scriptHeader project
          ++ String.concat "" (map sceneText (scenes project))).
Proof.
  unfold manifest, handleDownloadAssets.
  pose proof (forEach_scriptContent (scenes project) JSZip.empty (scriptHeader project)) as H.
  destruct (fold_left exportScene (scenes project) (JSZip.empty, scriptHeader project))
    as [zip content].
  cbn [archive]. rewrite find_file. cbn [JSZip.data]. simpl in H. now rewrite H.
Qed.

Lemma insert_at_head (s : Scene) (scenes : list Scene) :
  HdRel (fun a b => sceneNumber a <= sceneNumber b) s scenes ->
  Spec.insert_by_number s scenes = s :: scenes.
Proof.
  intros H. destruct scenes as [|s' rest]; simpl.
  - reflexivity.
  - inversion H as [|? ? Hle]; subst.
    apply Z.leb_le in Hle. now rewrite Hle.
Qed.

Lemma sort_of_ascending (scenes : list Scene) :
  Spec.ascending scenes -> Spec.sort_by_number scenes = scenes.
Proof.
  induction 1 as [|s scenes Hs IH Hd]; simpl.
  - reflexivity.
  - rewrite IH. now apply insert_at_head.
Qed.

(** C1, as the code has it: the manifest lists the scenes in the order
    of the project's scene list, the code sorting nothing; so it is in
    ascending scene-number order when the scene list is. *)
Theorem manifest_follows_scene_list (project : Project) :
  manifest (handleDownloadAssets project)
  = Some (scriptHeader project
          ++ String.concat "" (map sceneText (scenes project)))
  /\ (Spec.ascending (scenes project) ->
      manifest (handleDownloadAssets project)
      = Some (Spec.manifest_in_number_order project)).
Proof.
  split.
  - apply manifest_text.
  - intros Hasc. rewrite manifest_text. unfold Spec.manifest_in_number_order.
    now rewrite (sort_of_ascending _ Hasc).
Qed.

End AssetExport.

Lemma manifest_follows_scene_list_witness :
  Spec.ascending (scenes Sample.in_order)
  /\ Storyboard.manifest (Storyboard.handleDownloadAssets Sample.in_order)
     = Some (Spec.manifest_in_number_order Sample.in_order).
Proof.
  assert (H : Spec.ascending (scenes Sample.in_order)).
  { unfold Spec.ascending. simpl.
    repeat constructor. simpl. lia. }
  split; [exact H |].
  exact (proj2 (manifest_follows_scene_list Sample.in_order) H).
Defined.

(** C1, as the specification states it, fails: two projects with the same
    two scenes, numbered 1 and 2, in opposite list orders, export
    different manifests, and the one listing scene 2 first is not in
    scene-number order. *)
Lemma manifest_depends_on_list_order :
  Permutation (scenes Sample.reversed) (scenes Sample.in_order)
  /\ NoDup (map sceneNumber (scenes Sample.reversed))
  /\ Storyboard.manifest (Storyboard.handleDownloadAssets Sample.reversed)
     <> Storyboard.manifest (Storyboard.handleDownloadAssets Sample.in_order)
  /\ Storyboard.manifest (Storyboard.handleDownloadAssets Sample.reversed)
     <> Some (Spec.manifest_in_number_order Sample.reversed).
Proof.
  split; [apply perm_swap |].
  split.
  { simpl. repeat constructor; simpl; intuition discriminate. }
  split; intros H; vm_compute in H; discriminate H.
Qed.

(** ** The character manager *)

Section CharacterImport.
Context {platform : Platform}.
Import CharacterManager.

(** Every failure of the import hands nothing to [onUpdate]. *)
Lemma failed_import_updates_nothing (characters : list JSON) (jsonInput message : string) :
  handleImportJson characters jsonInput = failed message ->
  onUpdate (handleImportJson characters jsonInput) = None.
Proof. intros ->. reflexivity. Qed.

(** A text that [JSON.parse] rejects is reported as a syntax error. *)
Lemma import_rejected_text (characters : list JSON) (jsonInput : string) :
  JSON_parse jsonInput = None ->
  handleImportJson characters jsonInput = failed ParseError.
Proof. intros H. unfold handleImportJson. now rewrite H. Qed.

(** A parsed value other than [null] without a list under [characters]
    is reported as a format error. *)
Lemma import_without_list (characters : list JSON) (jsonInput : string) (parsed : JSON) :
  JSON_parse jsonInput = Some parsed ->
  parsed <> JNull ->
  (forall cs, Value.get parsed "characters" = Returned cs -> Value.isArray cs = None) ->
  handleImportJson characters jsonInput = failed SchemaError.
Proof.
  intros Hp Hnull Hcs. unfold handleImportJson. rewrite Hp.
  destruct (Value.get parsed "characters") as [cs|e] eqn:G.
  - now rewrite (Hcs cs eq_refl).
  - destruct parsed; simpl in G; try discriminate. now elim Hnull.
Qed.

(** C2: for a text that parses to an object whose [characters] property
    is the list [added], [handleImportJson] hands [onUpdate] the existing
    list followed by [added]: the length is the sum of the two lengths
    and the existing entries stay where they were. *)
Theorem import_appends
  (existing : list JSON) (jsonInput : string)
  (props : list (string * JSON)) (added : list JSON) :
  JSON_parse jsonInput = Some (JObject props) ->
  Value.lookup "characters" props = Some (JArray added) ->
  onUpdate (handleImportJson existing jsonInput) = Some (existing ++ added)%list
  /\ List.length (existing ++ added)%list
     = (List.length existing + List.length added)%nat
  /\ firstn (List.length existing) (existing ++ added)%list = existing
  /\ skipn (List.length existing) (existing ++ added)%list = added.
Proof.
  intros Hp Hc. unfold handleImportJson. rewrite Hp. cbn [Value.get].
  rewrite Hc. cbn [Value.isArray onUpdate].
  repeat split.
  - apply length_app.
  - rewrite firstn_app, Nat.sub_diag, firstn_all. simpl. apply app_nil_r.
  - rewrite skipn_app, Nat.sub_diag, skipn_all. reflexivity.
Qed.

(** C3 at the text [null]: it is valid JSON without a [characters]
    property, and the handler reports it as a syntax error, the property
    read throwing inside the [try] block. *)
Theorem import_of_null_is_reported_as_syntax_error (existing : list JSON) :
  JSON_parse "null" = Some JNull ->
  handleImportJson existing "null" = failed ParseError
  /\ failed ParseError <> failed SchemaError.
Proof.
  intros Hp. unfold handleImportJson. rewrite Hp. cbn [Value.get].
  split; [reflexivity | discriminate].
Qed.

End CharacterImport.

Lemma import_appends_witness :
  let existing := [Value.of_Character Sample.mia] in
  CharacterManager.onUpdate
    (@CharacterManager.handleImportJson Sample.keyed existing INITIAL_CHARACTERS_JSON)
  = Some (existing ++ App.INITIAL_CHARACTERS)%list.
Proof.
  intros existing.
  refine (proj1 (@import_appends Sample.keyed existing INITIAL_CHARACTERS_JSON
                   [("characters", JArray App.INITIAL_CHARACTERS)]
                   App.INITIAL_CHARACTERS _ _)).
  - vm_compute. reflexivity.
  - reflexivity.
Defined.

Lemma import_of_null_witness :
  @CharacterManager.handleImportJson Sample.keyed App.INITIAL_CHARACTERS "null"
  = CharacterManager.failed CharacterManager.ParseError.
Proof.
  refine (proj1 (@import_of_null_is_reported_as_syntax_error
                   Sample.keyed App.INITIAL_CHARACTERS _)).
  vm_compute. reflexivity.
Defined.

Section Editing.
Import CharacterManager Storyboard.

Lemma lookup_id_of_Character (c : Character) :
  Value.get (Value.of_Character c) "id" = Returned (Some (JString (character_id c))).
Proof. reflexivity. Qed.

(** On values: the filter keeps a list whose elements all answer the
    read of [id] with something other than the given string. *)
Lemma removeCharacter_keeps_others (characters : list JSON) (id : string) :
  (forall c, In c characters ->
     exists cid, Value.get c "id" = Returned cid
                 /\ Value.strict_neq_string cid id = true) ->
  removeCharacter characters id = Returned characters.
Proof.
  unfold removeCharacter.
  induction characters as [|c characters IH]; intros Hall.
  - reflexivity.
  - cbn [filter_other_ids].
    destruct (Hall c (or_introl eq_refl)) as (cid & -> & ->).
    now rewrite IH by (intros c' Hc'; apply Hall; now right).
Qed.

(** A [null] in the list, which the type [Character[]] excludes and the
    import lets in, makes the filter throw. *)
Example removeCharacter_null :
  removeCharacter [JNull] "char_bella" = Thrown TypeError.
Proof. reflexivity. Qed.

Lemma removeCharacter_absent (L : list Character) (id : string) :
  ~ In id (map character_id L) ->
  removeCharacter (map Value.of_Character L) id = Returned (map Value.of_Character L).
Proof.
  intros Hnot. apply removeCharacter_keeps_others.
  intros v Hv. apply in_map_iff in Hv as (c & <- & Hc).
  rewrite lookup_id_of_Character. eexists. split; [reflexivity |].
  cbn [Value.strict_neq_string].
  destruct (String.eqb_spec (character_id c) id) as [E|E]; [| reflexivity].
  elim Hnot. apply in_map_iff. now exists c.
Qed.

Lemma map_if_absent {A} (key : A -> string) (f : A -> A) (l : list A) (id : string) :
  ~ In id (map key l) ->
  map (fun x => if String.eqb (key x) id then f x else x) l = l.
Proof.
  induction l as [|x l IH]; intros Hnot.
  - reflexivity.
  - cbn [map]. rewrite IH by (intros Hin; apply Hnot; now right).
    destruct (String.eqb_spec (key x) id) as [E|E].
    + elim Hnot. now left.
    + reflexivity.
Qed.

(** C5: [removeCharacter], the save of an edited prompt and the setting
    of a scene image return their input list, element for element, when
    no element carries the given identifier. *)
Theorem absent_identifier_changes_nothing
  (L : list Character) (scenes : list Scene) (id text image : string) :
  ~ In id (map character_id L) ->
  ~ In id (map scene_id scenes) ->
  removeCharacter (map Value.of_Character L) id = Returned (map Value.of_Character L)
  /\ editScenePrompt scenes id text = scenes
  /\ setSceneImage scenes id image = scenes.
Proof.
  intros HL Hs. split; [| split].
  - now apply removeCharacter_absent.
  - unfold editScenePrompt.
    exact (map_if_absent scene_id (fun s => set_visualPrompt s text) scenes id Hs).
  - unfold setSceneImage.
    exact (map_if_absent scene_id (fun s => set_generatedImageUrl s image) scenes id Hs).
Qed.

End Editing.

Lemma absent_identifier_changes_nothing_witness :
  CharacterManager.removeCharacter
    (map Value.of_Character [Sample.bella; Sample.mia]) "char_zoe"
  = Returned (map Value.of_Character [Sample.bella; Sample.mia])
  /\ Storyboard.editScenePrompt [Sample.first; Sample.second] "char_zoe" "A new prompt"
     = [Sample.first; Sample.second]
  /\ Storyboard.setSceneImage [Sample.first; Sample.second] "char_zoe" "data:,AAAA"
     = [Sample.first; Sample.second].
Proof.
  apply (absent_identifier_changes_nothing
           [Sample.bella; Sample.mia] [Sample.first; Sample.second]
           "char_zoe" "A new prompt" "data:,AAAA").
  - simpl. intuition discriminate.
  - simpl. intuition discriminate.
Defined.

(** ** Image file names *)

Section ImageNames.
Import Storyboard.

Lemma padded_numbers_below_1000 :
  forallb (fun k => String.eqb
                      (Js.padStart (Js.number_to_string (Z.of_nat k)) 3 "0")
                      (Spec.three_digits (Z.of_nat k)))
          (seq 1 999) = true.
Proof. vm_compute. reflexivity. Qed.

Lemma padStart_three_digits (n : Z) :
  1 <= n <= 999 ->
  Js.padStart (Js.number_to_string n) 3 "0" = Spec.three_digits n.
Proof.
  intros Hn.
  pose proof padded_numbers_below_1000 as H.
  rewrite forallb_forall in H.
  specialize (H (Z.to_nat n)).
  rewrite Z2Nat.id in H by lia.
  apply String.eqb_eq, H, in_seq. lia.
Qed.

Lemma imageName_pattern (s : Scene) :
  1 <= sceneNumber s <= 999 ->
  imageName s = Spec.image_filename (sceneNumber s).
Proof.
  intros Hn. unfold imageName, Spec.image_filename.
  now rewrite padStart_three_digits.
Qed.

Lemma digit_inj (a b : Z) :
  0 <= a < 10 -> 0 <= b < 10 -> Spec.digit a = Spec.digit b -> a = b.
Proof.
  unfold Spec.digit. intros Ha Hb H.
  apply (f_equal nat_of_ascii) in H.
  rewrite !nat_ascii_embedding in H by lia. lia.
Qed.

Lemma three_digits_inj (n m : Z) :
  0 <= n <= 999 -> 0 <= m <= 999 ->
  Spec.three_digits n = Spec.three_digits m -> n = m.
Proof.
  intros Hn Hm H. unfold Spec.three_digits in H.
  injection H as H100 H10 H1.
  pose proof (Z.div_mod n 10 ltac:(lia)) as Dn.
  pose proof (Z.div_mod m 10 ltac:(lia)) as Dm.
  pose proof (Z.div_mod (n / 10) 10 ltac:(lia)) as Dn'.
  pose proof (Z.div_mod (m / 10) 10 ltac:(lia)) as Dm'.
  rewrite Z.div_div in Dn', Dm' by lia. change (10 * 10) with 100 in Dn', Dm'.
  pose proof (Z.mod_pos_bound n 10 ltac:(lia)).
  pose proof (Z.mod_pos_bound m 10 ltac:(lia)).
  pose proof (Z.mod_pos_bound (n / 10) 10 ltac:(lia)).
  pose proof (Z.mod_pos_bound (m / 10) 10 ltac:(lia)).
  assert (0 <= n / 100 < 10) by (split; [apply Z.div_pos | apply Z.div_lt_upper_bound]; lia).
  assert (0 <= m / 100 < 10) by (split; [apply Z.div_pos | apply Z.div_lt_upper_bound]; lia).
  apply digit_inj in H100, H10, H1; try assumption. lia.
Qed.

Lemma image_filename_inj (n m : Z) :
  0 <= n <= 999 -> 0 <= m <= 999 ->
  Spec.image_filename n = Spec.image_filename m -> n = m.
Proof.
  intros Hn Hm H. apply three_digits_inj; try assumption.
  unfold Spec.image_filename, Spec.three_digits in *. cbn [append] in H.
  injection H as -> -> ->. reflexivity.
Qed.

Lemma imageNames_distinct (scenes : list Scene) :
  (forall s, In s scenes -> 1 <= sceneNumber s <= 999) ->
  NoDup (map sceneNumber scenes) ->
  NoDup (map imageName scenes).
Proof.
  induction scenes as [|s scenes IH]; intros Hr Hd; simpl.
  - constructor.
  - inversion Hd as [|? ? Hnot Hd']; subst. constructor.
    + intros Hin. apply in_map_iff in Hin as (s' & Heq & Hs').
      apply Hnot. apply in_map_iff. exists s'. split; [| assumption].
      rewrite !imageName_pattern in Heq by (apply Hr; simpl; auto).
      apply image_filename_inj; [| | assumption].
      * pose proof (Hr s' (or_intror Hs')). lia.
      * pose proof (Hr s (or_introl eq_refl)). lia.
    + apply IH; [| assumption]. intros s' Hs'. apply Hr. now right.
Qed.

Lemma names_file (name x : string) (e : JSZip.entry) (zip : JSZip.t) :
  In x (JSZip.names (JSZip.file name e zip)) -> x = name \/ In x (JSZip.names zip).
Proof.
  unfold JSZip.names.
  induction zip as [|[n e'] zip IH]; simpl.
  - intuition.
  - destruct (String.eqb_spec n name) as [->|Hne]; simpl.
    + intuition.
    + intros [H|H]; [now right; left |].
      destruct (IH H); [now left | now right; right].
Qed.

Lemma names_sceneFile (x : string) (s : Scene) (zip : JSZip.t) :
  In x (JSZip.names (sceneFile s zip)) -> x = imageName s \/ In x (JSZip.names zip).
Proof.
  unfold sceneFile.
  destruct (generatedImageUrl s) as [url|]; [| now right].
  destruct (Js.truthy_string url); [| now right].
  destruct (nth_error (Js.split "," url) 1) as [b|]; [| now right].
  destruct (Js.truthy_string b); [| now right].
  apply names_file.
Qed.

Lemma names_forEach (x : string) (scenes : list Scene) (zip : JSZip.t) (content : string) :
  In x (JSZip.names (fst (fold_left exportScene scenes (zip, content)))) ->
  In x (JSZip.names zip) \/ exists s, In s scenes /\ x = imageName s.
Proof.
  revert zip content.
  induction scenes as [|s scenes IH]; intros zip content H.
  - now left.
  - cbn [fold_left] in H. unfold exportScene at 2 in H.
    apply IH in H as [H | (s' & Hs' & ->)].
    + apply names_sceneFile in H as [-> | H].
      * right. exists s. split; [now left | reflexivity].
      * now left.
    + right. exists s'. split; [now right | reflexivity].
Qed.

End ImageNames.

(** ** The generation service *)

Section Generation.
Context {platform : Platform}.
Import Service.

(** X3: with a key, each operation sends its one request whatever comes
    of it, and no second one: the record of calls is what the next
    theorem speaks about. *)
Lemma keyed_operations_call_once
  (idea : string) (characters : list Character) (style : AnimationStyle)
  (type : VideoType) (visualPrompt : string) (topic : option string) (w : World) :
  Js.truthy_opt API_KEY = true ->
  calls (snd (generateStoryScenes idea characters style type w))
  = (calls w ++ [storyRequest idea characters style type])%list
  /\ calls (snd (generateScenePreview visualPrompt w))
     = (calls w ++ [previewRequest visualPrompt])%list
  /\ calls (snd (generateProjectIdea topic w))
     = (calls w ++ [ideaRequest topic])%list.
Proof.
  intros Hkey.
  assert (Hmap : forall (f : JSON -> M JSON), (forall v w0, calls (snd (f v w0)) = calls w0) ->
            forall items w0, calls (snd (mapM f items w0)) = calls w0).
  { intros f Hf. induction items as [|v items IH]; intros w0; cbn [mapM].
    - reflexivity.
    - unfold bind, ret. specialize (Hf v w0).
      destruct (f v w0) as [[y|e] w1]; cbn [snd] in *; [| assumption].
      specialize (IH w1).
      destruct (mapM f items w1) as [[ys|e] w2]; cbn [snd] in *; congruence. }
  assert (Hid : forall v w0, calls (snd (keep_or_assign_id v w0)) = calls w0).
  { intros v w0. unfold keep_or_assign_id, bind, lift, crypto_randomUUID, ret.
    destruct (Value.get v "id") as [[cid|]|e];
      [destruct (Value.truthy (Some cid)) | |]; reflexivity. }
  unfold generateStoryScenes, generateScenePreview, generateProjectIdea, getClient.
  rewrite Hkey. unfold bind at 1 3 5. cbn [negb ret].
  unfold bind, ai_models_generateContent, parse, throw, ret, lift, map_of.
  split; [| split].
  - destruct (generateContent _ _) as [r|e]; [| reflexivity].
    destruct (JSON_parse _) as [v|]; [| reflexivity].
    destruct v; try reflexivity.
    rewrite Hmap; [reflexivity |]. intros v w0. reflexivity.
  - destruct (generateContent _ _) as [r|e]; [| reflexivity].
    destruct (first_image _); reflexivity.
  - destruct (generateContent _ _) as [r|e]; [| reflexivity].
    destruct (JSON_parse _) as [v|]; [| reflexivity].
    destruct (Value.get v "characters") as [cs|e]; [| reflexivity].
    destruct (Value.truthy cs); [| reflexivity].
    destruct cs as [c|]; [| reflexivity].
    destruct c; try reflexivity.
    pose proof (Hmap keep_or_assign_id Hid items (sent w (ideaRequest topic))) as H.
    unfold sent in H.
    destruct (mapM keep_or_assign_id items _) as [[ys|e] w2]; exact H.
Qed.

(** C7: without a configured key, each of the three operations throws
    the error of [getClient] and leaves the world as it was: nothing is
    sent to the remote model and no identifier is drawn. *)
Theorem missing_credential_fails_before_any_call
  (idea : string) (characters : list Character) (style : AnimationStyle)
  (type : VideoType) (visualPrompt : string) (topic : option string) (w : World) :
  Js.truthy_opt API_KEY = false ->
  generateStoryScenes idea characters style type w = (Thrown MissingCredential, w)
  /\ generateScenePreview visualPrompt w = (Thrown MissingCredential, w)
  /\ generateProjectIdea topic w = (Thrown MissingCredential, w).
Proof.
  intros Hkey.
  unfold generateStoryScenes, generateScenePreview, generateProjectIdea, getClient.
  rewrite Hkey. repeat split.
Qed.

End Generation.

Lemma missing_credential_witness :
  @Service.generateStoryScenes Sample.keyless
    "A cat learns to fly" [Sample.bella; Sample.mia] CLAYMATION SHORT Sample.start
  = (Thrown Service.MissingCredential, Sample.start)
  /\ @Service.generateScenePreview Sample.keyless "A cat, Claymation" Sample.start
     = (Thrown Service.MissingCredential, Sample.start)
  /\ @Service.generateProjectIdea Sample.keyless (Some "cats") Sample.start
     = (Thrown Service.MissingCredential, Sample.start).
Proof.
  apply (@missing_credential_fails_before_any_call Sample.keyless).
  reflexivity.
Defined.

Section StoryScenes.
Context {platform : Platform}.
Import Service.

Lemma lookup_assign_same (k : string) (v : JSON) (props : list (string * JSON)) :
  Value.lookup k (Value.assign k v props) = Some v.
Proof.
  induction props as [|[k' v'] props IH]; simpl.
  - now rewrite String.eqb_refl.
  - destruct (String.eqb k' k) eqn:E; simpl.
    + now rewrite String.eqb_refl.
    + now rewrite E.
Qed.

Lemma lookup_assign_other (k k0 : string) (v : JSON) (props : list (string * JSON)) :
  k0 <> k ->
  Value.lookup k0 (Value.assign k v props) = Value.lookup k0 props.
Proof.
  intros Hne.
  induction props as [|[k' v'] props IH]; simpl.
  - destruct (String.eqb_spec k k0); [congruence | reflexivity].
  - destruct (String.eqb_spec k' k) as [->|Hk]; simpl.
    + destruct (String.eqb_spec k k0); [congruence | reflexivity].
    + destruct (String.eqb k' k0); [reflexivity | apply IH].
Qed.

(** The [map] over the parsed records draws one identifier per record,
    in order. *)
Lemma map_add_id (records : list (list (string * JSON))) (w : World) :
  mapM add_id (map JObject records) w
  = (Returned (map (fun p => Spec.record_with_id (fst p) (snd p))
                   (combine records (Spec.draws (issued w) (List.length records)))),
     drawn w (List.length records)).
Proof.
  revert w. induction records as [|props records IH]; intros [cs n].
  - cbn. unfold ret, drawn. cbn. now rewrite Nat.add_0_r.
  - cbn [map mapM List.length]. unfold bind at 1. unfold add_id at 1.
    unfold bind at 1. unfold crypto_randomUUID at 1. cbn [calls issued].
    unfold ret at 1. unfold bind at 1. rewrite IH. cbn [calls issued].
    unfold ret, drawn. cbn [calls issued Spec.draws seq map combine fst snd].
    unfold with_id, Spec.record_with_id. cbn [Value.spread].
    unfold Spec.draws. now rewrite Nat.add_succ_r.
Qed.

Lemma nth_error_combine_draws (records : list (list (string * JSON))) (start i : nat)
  (props : list (string * JSON)) :
  nth_error records i = Some props ->
  nth_error (combine records (Spec.draws start (List.length records))) i
  = Some (props, randomUUID (start + i)).
Proof.
  unfold Spec.draws. revert start i.
  induction records as [|p records IH]; intros start i H.
  - destruct i; discriminate.
  - destruct i as [|i]; cbn in *.
    + injection H as ->. now rewrite Nat.add_0_r.
    + rewrite (IH (S start) i H), Nat.add_succ_r. reflexivity.
Qed.

Lemma ids_of_records (records : list (list (string * JSON))) (ids : list string) :
  List.length ids = List.length records ->
  map Spec.id_of (map (fun p => Spec.record_with_id (fst p) (snd p)) (combine records ids))
  = map (fun id => Some (JString id)) ids.
Proof.
  revert ids. induction records as [|p records IH]; intros [|id ids] H;
    try discriminate; cbn.
  - reflexivity.
  - rewrite lookup_assign_same. f_equal. apply IH. now injection H.
Qed.

(** C8: when the response text parses to a list of records, the scenes
    returned are, in the same number and order, the records each with
    the next identifier drawn under [id] and every other property as it
    was; the identifiers are pairwise distinct, the draws being so.  When
    the text does not parse, the operation throws. *)
Theorem story_scenes_carry_fresh_ids
  (idea : string) (characters : list Character) (style : AnimationStyle)
  (type : VideoType) (w : World) (r : response) (t : string) :
  Js.truthy_opt API_KEY = true ->
  generateContent (List.length (calls w)) (storyRequest idea characters style type)
  = Returned r ->
  text r = Some t ->
  Js.truthy_string t = true ->
  (forall records,
     JSON_parse t = Some (JArray (map JObject records)) ->
     NoDup (Spec.draws (issued w) (List.length records)) ->
     exists scenes,
       fst (generateStoryScenes idea characters style type w) = Returned scenes
       /\ List.length scenes = List.length records
       /\ (forall i props,
             nth_error records i = Some props ->
             exists scene,
               nth_error scenes i = Some scene
               /\ scene = Spec.record_with_id props (randomUUID (issued w + i))
               /\ Spec.id_of scene = Some (JString (randomUUID (issued w + i)))
               /\ forall k, k <> "id" ->
                            Spec.property k scene = Value.lookup k props)
       /\ NoDup (map Spec.id_of scenes))
  /\ (JSON_parse t = None ->
      fst (generateStoryScenes idea characters style type w) = Thrown SyntaxError).
Proof.
  intros Hkey Hcall Ht Htruthy.
  assert (Hrun : generateStoryScenes idea characters style type w
                 = bind (parse t) (fun parsed => map_of parsed add_id)
                        (sent w (storyRequest idea characters style type))).
  { unfold generateStoryScenes, getClient. rewrite Hkey. cbn [negb].
    unfold bind at 1. unfold ret at 1. unfold bind at 1.
    unfold ai_models_generateContent. rewrite Hcall.
    unfold Js.or_else. rewrite Ht, Htruthy. reflexivity. }
  rewrite Hrun. unfold bind, parse. split.
  - intros records Hparse Hdistinct. rewrite Hparse. unfold ret. cbn [map_of].
    rewrite map_add_id. cbn [fst issued sent].
    eexists. split; [reflexivity |].
    assert (Hlen : List.length (Spec.draws (issued w) (List.length records))
                   = List.length records).
    { unfold Spec.draws. now rewrite length_map, length_seq. }
    split; [| split].
    + rewrite length_map, length_combine, Hlen. apply Nat.min_id.
    + intros i props Hi. eexists. split; [| split; [reflexivity | split]].
      * erewrite map_nth_error by (apply nth_error_combine_draws; exact Hi).
        reflexivity.
      * cbn. apply lookup_assign_same.
      * intros k Hk. cbn. now apply lookup_assign_other.
    + rewrite ids_of_records by exact Hlen.
      apply Finite.Injective_map_NoDup; [| exact Hdistinct].
      intros a b H. now injection H.
  - intros Hparse. rewrite Hparse. reflexivity.
Qed.

(** C9: when the response carries no text, or an empty one, the
    document [[]] is parsed in its place and the operation returns the
    empty list, having sent its one request and drawn no identifier. *)
Theorem story_scenes_of_no_text
  (idea : string) (characters : list Character) (style : AnimationStyle)
  (type : VideoType) (w : World) (r : response) :
  Js.truthy_opt API_KEY = true ->
  generateContent (List.length (calls w)) (storyRequest idea characters style type)
  = Returned r ->
  Js.truthy_opt (text r) = false ->
  JSON_parse "[]" = Some (JArray []) ->
  generateStoryScenes idea characters style type w
  = (Returned [], sent w (storyRequest idea characters style type)).
Proof.
  intros Hkey Hcall Htext Hparse.
  unfold generateStoryScenes, getClient. rewrite Hkey. cbn [negb].
  unfold bind at 1. unfold ret at 1. unfold bind at 1.
  unfold ai_models_generateContent. rewrite Hcall.
  assert (Hdoc : Js.or_else (text r) "[]" = "[]").
  { unfold Js.or_else. destruct (text r) as [t|]; [| reflexivity].
    cbn in Htext. now rewrite Htext. }
  rewrite Hdoc. unfold bind, parse. rewrite Hparse. reflexivity.
Qed.

End StoryScenes.

Lemma story_scenes_carry_fresh_ids_witness :
  (exists scenes,
     fst (@Service.generateStoryScenes Sample.keyed
            "A cat learns to fly" [Sample.bella; Sample.mia] CLAYMATION SHORT Sample.start)
     = Returned scenes
     /\ List.length scenes = 2%nat
     /\ nth_error scenes 1
        = Some (Spec.record_with_id
                  [("sceneNumber", JNumber 2); ("script", JString "Bye");
                   ("visualPrompt", JString "A dog, Claymation");
                   ("duration", JString "4s")]
                  (Sample.uuid 1))
     /\ NoDup (map Spec.id_of scenes))
  /\ fst (@Service.generateStoryScenes Sample.garbled
            "A cat learns to fly" [Sample.bella; Sample.mia] CLAYMATION SHORT Sample.start)
     = Thrown SyntaxError.
Proof.
  split.
  - destruct (@story_scenes_carry_fresh_ids Sample.keyed
                "A cat learns to fly" [Sample.bella; Sample.mia] CLAYMATION SHORT
                Sample.start {| text := Some Sample.two_scenes_text; candidates := None |}
                Sample.two_scenes_text eq_refl eq_refl eq_refl eq_refl) as [Hparsed _].
    destruct (Hparsed Sample.two_scenes) as (scenes & Hrun & Hlen & Hnth & Hids).
    + vm_compute. reflexivity.
    + cbn. repeat constructor; cbn; intuition discriminate.
    + exists scenes. split; [exact Hrun |]. split; [exact Hlen |].
      split; [| exact Hids].
      destruct (Hnth 1%nat _ eq_refl) as (scene & Hscene & -> & _).
      exact Hscene.
  - refine (proj2 (@story_scenes_carry_fresh_ids Sample.garbled
                     "A cat learns to fly" [Sample.bella; Sample.mia] CLAYMATION SHORT
                     Sample.start {| text := Some "Sorry, I cannot."; candidates := None |}
                     "Sorry, I cannot." eq_refl eq_refl eq_refl eq_refl) _).
    vm_compute. reflexivity.
Defined.

Lemma story_scenes_of_no_text_witness :
  @Service.generateStoryScenes Sample.silent
    "A cat learns to fly" [Sample.bella; Sample.mia] CLAYMATION SHORT Sample.start
  = (Returned [],
     sent Sample.start
       (Service.storyRequest "A cat learns to fly" [Sample.bella; Sample.mia]
          CLAYMATION SHORT)).
Proof.
  apply (@story_scenes_of_no_text Sample.silent
           "A cat learns to fly" [Sample.bella; Sample.mia] CLAYMATION SHORT
           Sample.start {| text := None; candidates := None |}).
  - reflexivity.
  - reflexivity.
  - reflexivity.
  - vm_compute. reflexivity.
Defined.

(** ** The project store *)

Section Store.
Context {platform : Platform}.
Import App.

Lemma filter_other_projects (ps : list Project) (id : string) :
  (forall p, In p ps -> project_id p <> id) ->
  filter (fun p => negb (String.eqb (project_id p) id)) ps = ps.
Proof.
  induction ps as [|p ps IH]; intros Hfresh; simpl.
  - reflexivity.
  - destruct (String.eqb_spec (project_id p) id) as [E|E].
    + elim (Hfresh p (or_introl eq_refl) E).
    + simpl. f_equal. apply IH. intros q Hq. apply Hfresh. now right.
Qed.

Lemma replace_absent_project (ps : list Project) (updated : Project) :
  (forall p, In p ps -> project_id p <> project_id updated) ->
  map (fun p => if String.eqb (project_id p) (project_id updated) then updated else p) ps
  = ps.
Proof.
  induction ps as [|p ps IH]; intros Hfresh; simpl.
  - reflexivity.
  - destruct (String.eqb_spec (project_id p) (project_id updated)) as [E|E].
    + elim (Hfresh p (or_introl eq_refl) E).
    + f_equal. apply IH. intros q Hq. apply Hfresh. now right.
Qed.

(** C4: creating a project, deleting it by its identifier and then
    updating with it leaves the project list, and the stored snapshot,
    as they were before the creation; the identifier drawn for the new
    project is fresh, no project of the store carrying it. *)
Theorem create_delete_update_restores_store (now : Z) (s : state) (w : World) :
  (forall p, In p (projects s) -> project_id p <> randomUUID (issued w)) ->
  exists created s1 w1,
    handleCreateProject now s w = (Returned s1, w1)
    /\ project_id created = randomUUID (issued w)
    /\ projects s1 = created :: projects s
    /\ currentProject s1 = Some created
    /\ projects (handleDeleteProject true (project_id created) s1) = projects s
    /\ projects (updateProject created
                   (handleDeleteProject true (project_id created) s1))
       = projects s
    /\ storage (updateProject created
                  (handleDeleteProject true (project_id created) s1))
       = Some (projects s).
Proof.
  intros Hfresh.
  unfold handleCreateProject, bind, crypto_randomUUID, ret.
  set (created :=
         {| project_id := randomUUID (issued w);
            project_name := Js.or_default (newProjectName s) "Untitled Project";
            project_type := newProjectType s;
            style := newProjectStyle s;
            createdAt := now;
            characters := match customCharacters s with
                          | Some cs => cs
                          | None => INITIAL_CHARACTERS
                          end;
            scenes := [];
            storyIdea := form_storyIdea s |}).
  exists created. eexists. eexists.
  split; [reflexivity |].
  split; [reflexivity |]. split; [reflexivity |]. split; [reflexivity |].
  assert (Hdel : forall s1 c,
            projects s1 = c :: projects s ->
            project_id c = randomUUID (issued w) ->
            projects (handleDeleteProject true (project_id c) s1) = projects s).
  { intros s1 c Hs1 Hid. unfold handleDeleteProject. cbn [negb projects].
    rewrite Hs1. cbn [filter]. rewrite String.eqb_refl. cbn [negb].
    apply filter_other_projects. now rewrite Hid. }
  assert (Hupd : forall s2 c,
            projects s2 = projects s ->
            project_id c = randomUUID (issued w) ->
            projects (updateProject c s2) = projects s
            /\ storage (updateProject c s2) = Some (projects s)).
  { intros s2 c Hs2 Hid. unfold updateProject. cbn [projects storage].
    rewrite Hs2, replace_absent_project by now rewrite Hid. now split. }
  split; [apply Hdel; reflexivity |].
  apply Hupd; [apply Hdel; reflexivity | reflexivity].
Qed.

End Store.

Lemma create_delete_update_restores_store_witness :
  let s := Sample.store [Sample.in_order] in
  exists created s1 w1,
    @App.handleCreateProject Sample.keyed 1700000000000 s Sample.start = (Returned s1, w1)
    /\ project_id created = "id-"
    /\ App.projects s1 = [created; Sample.in_order]
    /\ App.projects (App.updateProject created
                       (App.handleDeleteProject true (project_id created) s1))
       = [Sample.in_order].
Proof.
  intros s.
  destruct (@create_delete_update_restores_store Sample.keyed 1700000000000 s Sample.start)
    as (created & s1 & w1 & Hrun & Hid & Hs1 & _ & _ & Hend & _).
  - cbn. intros p [<- | []]. discriminate.
  - exists created, s1, w1. repeat split; assumption.
Defined.

(** ** Scenes whose image payload has no second part *)

Section Payload.
Import Storyboard.

Lemma concat_split_at (s : Scene) (before after : list Scene) :
  String.concat "" (map sceneText (before ++ s :: after)%list)
  = String.concat "" (map sceneText before)
    ++ sceneText s ++ String.concat "" (map sceneText after).
Proof. now rewrite map_app, concat_app, map_cons, concat_cons. Qed.

(** C10: a scene whose stored payload is a non-empty string without a
    second comma-delimited part adds no entry to the archive, and its
    block of the manifest names the scene's image file, not the
    placeholder. *)
Theorem payload_without_data_is_listed_but_not_filed
  (project : Project) (scene : Scene) (url : string) :
  In scene (scenes project) ->
  generatedImageUrl scene = Some url ->
  url <> EmptyString ->
  nth_error (Js.split "," url) 1 = None ->
  (forall zip content,
     exportScene (zip, content) scene = (zip, content ++ sceneText scene))
  /\ sceneText scene
     = "SCENE " ++ Js.number_to_string (sceneNumber scene) ++ Js.nl
       ++ "Duration: " ++ duration scene ++ Js.nl
       ++ "Script: " ++ Js.dq ++ script scene ++ Js.dq ++ Js.nl
       ++ "Visual Prompt: " ++ visualPrompt scene ++ Js.nl
       ++ "Generated Image File: " ++ imageName scene ++ Js.nl
       ++ "------------------------------------------------" ++ Js.nl ++ Js.nl
  /\ exists before after,
       manifest (handleDownloadAssets project)
       = Some (before ++ sceneText scene ++ after).
Proof.
  intros Hin Hurl Hne Hsplit.
  assert (Htruthy : Js.truthy_string url = true).
  { destruct url; [now elim Hne | reflexivity]. }
  split; [| split].
  - intros zip content. unfold exportScene, sceneFile.
    now rewrite Hurl, Htruthy, Hsplit.
  - unfold sceneText. rewrite Hurl. cbn [Js.truthy_opt]. now rewrite Htruthy.
  - apply in_split in Hin as (l1 & l2 & Hscenes).
    exists (scriptHeader project ++ String.concat "" (map sceneText l1)).
    exists (String.concat "" (map sceneText l2)).
    rewrite manifest_text, Hscenes, concat_split_at. now rewrite append_assoc.
Qed.

End Payload.

Lemma payload_without_data_witness :
  Storyboard.archive (Storyboard.handleDownloadAssets (Sample.project_of [Sample.bare]))
  = [(Storyboard.manifestName,
      {| JSZip.data := Storyboard.scriptHeader (Sample.project_of [Sample.bare])
                       ++ Storyboard.sceneText Sample.bare;
         JSZip.base64 := false |})]
  /\ Storyboard.sceneText Sample.bare
     = "SCENE 3" ++ Js.nl
       ++ "Duration: 3s" ++ Js.nl
       ++ "Script: " ++ Js.dq ++ "Line c" ++ Js.dq ++ Js.nl
       ++ "Visual Prompt: Prompt c" ++ Js.nl
       ++ "Generated Image File: scene_003.png" ++ Js.nl
       ++ "------------------------------------------------" ++ Js.nl ++ Js.nl.
Proof.
  destruct (payload_without_data_is_listed_but_not_filed
              (Sample.project_of [Sample.bare]) Sample.bare "AAAA")
    as (Hstep & Htext & _).
  - now left.
  - reflexivity.
  - discriminate.
  - reflexivity.
  - split.
    + unfold Storyboard.handleDownloadAssets. cbn [scenes Sample.project_of fold_left].
      rewrite Hstep. reflexivity.
    + rewrite Htext. reflexivity.
Defined.

(* ================================================================== *)
(** * Further properties of the code *)
(* ================================================================== *)

(** ** The generation service, past the credential *)

Section ServiceOutcomes.
Context {platform : Platform}.
Import Service.

Lemma bind_getClient {A} (k : unit -> M A) (w : World) :
  Js.truthy_opt API_KEY = true -> bind getClient k w = k tt w.
Proof. intros H. unfold bind, getClient. now rewrite H. Qed.

Lemma first_image_skips (before after : list part) (data : string) :
  Forall (fun p => inlineData p = None) before ->
  first_image (before ++ {| inlineData := Some data |} :: after)%list
  = Some ("data:image/png;base64," ++ data).
Proof.
  induction 1 as [|p before Hp _ IH]; cbn [first_image app].
  - reflexivity.
  - now rewrite Hp.
Qed.

Lemma first_image_none (ps : list part) :
  Forall (fun p => inlineData p = None) ps -> first_image ps = None.
Proof.
  induction 1 as [|p ps Hp _ IH]; cbn [first_image].
  - reflexivity.
  - now rewrite Hp.
Qed.

Lemma preview_after_the_call (visualPrompt : string) (w : World) (r : response) :
  Js.truthy_opt API_KEY = true ->
  generateContent (List.length (calls w)) (previewRequest visualPrompt) = Returned r ->
  generateScenePreview visualPrompt w
  = match first_image (first_parts r) with
    | Some uri => (Returned uri, sent w (previewRequest visualPrompt))
    | None => (Thrown NoImage, sent w (previewRequest visualPrompt))
    end.
Proof.
  intros Hkey Hcall.
  unfold generateScenePreview. rewrite bind_getClient by assumption.
  unfold bind, ai_models_generateContent. rewrite Hcall.
  destruct (first_image (first_parts r)); reflexivity.
Qed.

(** X1: with a key and a settled call, [generateScenePreview] returns
    the data URI of the first part of the first candidate that carries
    inline data, and throws its own error when no part does (also when
    there is no candidate at all). *)
Theorem preview_is_the_first_image_part
  (visualPrompt : string) (w : World) (r : response) :
  Js.truthy_opt API_KEY = true ->
  generateContent (List.length (calls w)) (previewRequest visualPrompt) = Returned r ->
  (forall before data after,
     first_parts r = (before ++ {| inlineData := Some data |} :: after)%list ->
     Forall (fun p => inlineData p = None) before ->
     generateScenePreview visualPrompt w
     = (Returned ("data:image/png;base64," ++ data),
        sent w (previewRequest visualPrompt)))
  /\ (Forall (fun p => inlineData p = None) (first_parts r) ->
      generateScenePreview visualPrompt w
      = (Thrown NoImage, sent w (previewRequest visualPrompt))).
Proof.
  intros Hkey Hcall.
  pose proof (preview_after_the_call visualPrompt w r Hkey Hcall) as Hrun.
  split.
  - intros before data after Hparts Hbefore.
    now rewrite Hrun, Hparts, first_image_skips.
  - intros Hnone. now rewrite Hrun, first_image_none.
Qed.

(** X2: when the remote call rejects, each of the three operations
    rejects with the same error, having sent its one request and drawn no
    identifier. *)
Theorem upstream_error_is_rethrown
  (idea : string) (characters : list Character) (style : AnimationStyle)
  (type : VideoType) (visualPrompt : string) (topic : option string)
  (w : World) (e : error) :
  Js.truthy_opt API_KEY = true ->
  (forall req, generateContent (List.length (calls w)) req = Thrown e) ->
  generateStoryScenes idea characters style type w
  = (Thrown e, sent w (storyRequest idea characters style type))
  /\ generateScenePreview visualPrompt w
     = (Thrown e, sent w (previewRequest visualPrompt))
  /\ generateProjectIdea topic w
     = (Thrown e, sent w (ideaRequest topic)).
Proof.
  intros Hkey Hcall.
  unfold generateStoryScenes, generateScenePreview, generateProjectIdea.
  rewrite !bind_getClient by assumption.
  unfold bind, ai_models_generateContent. rewrite !Hcall. repeat split.
Qed.

(** X4: a response text that parses to anything but an array makes
    [generateStoryScenes] throw a [TypeError]: nothing is returned and no
    identifier is drawn. *)
Theorem story_scenes_of_a_non_array
  (idea : string) (characters : list Character) (style : AnimationStyle)
  (type : VideoType) (w : World) (r : response) (parsed : JSON) :
  Js.truthy_opt API_KEY = true ->
  generateContent (List.length (calls w)) (storyRequest idea characters style type)
  = Returned r ->
  JSON_parse (Js.or_else (text r) "[]") = Some parsed ->
  (forall items, parsed <> JArray items) ->
  generateStoryScenes idea characters style type w
  = (Thrown TypeError, sent w (storyRequest idea characters style type)).
Proof.
  intros Hkey Hcall Hparse Hshape.
  unfold generateStoryScenes. rewrite bind_getClient by assumption.
  unfold bind, ai_models_generateContent, parse. rewrite Hcall, Hparse.
  unfold ret. destruct parsed; try reflexivity. now elim (Hshape items).
Qed.

End ServiceOutcomes.

Lemma preview_is_the_first_image_part_witness :
  let r := {| text := Some "Here is your image";
              candidates :=
                Some [ {| candidate_content :=
                            Some {| parts := Some [ {| inlineData := None |};
                                                    {| inlineData := Some "AAAA" |};
                                                    {| inlineData := Some "BBBB" |} ] |} |} ] |} in
  @Service.generateScenePreview (Sample.platform_with (Some "secret") (Returned r))
    "A cat, Claymation" Sample.start
  = (Returned "data:image/png;base64,AAAA",
     sent Sample.start (Service.previewRequest "A cat, Claymation"))
  /\ @Service.generateScenePreview Sample.silent "A cat, Claymation" Sample.start
     = (Thrown Service.NoImage,
        sent Sample.start (Service.previewRequest "A cat, Claymation")).
Proof.
  intros r. split.
  - refine (proj1 (@preview_is_the_first_image_part
                     (Sample.platform_with (Some "secret") (Returned r))
                     "A cat, Claymation" Sample.start r eq_refl eq_refl)
                  [ {| inlineData := None |} ] "AAAA" [ {| inlineData := Some "BBBB" |} ]
                  eq_refl _).
    repeat constructor.
  - refine (proj2 (@preview_is_the_first_image_part Sample.silent
                     "A cat, Claymation" Sample.start
                     {| text := None; candidates := None |} eq_refl eq_refl) _).
    constructor.
Defined.

Lemma upstream_error_is_rethrown_witness :
  let quota := Rejected "429 quota exceeded" in
  let offline := Sample.platform_with (Some "secret") (Thrown quota) in
  @Service.generateStoryScenes offline
    "A cat learns to fly" [Sample.bella] CLAYMATION SHORT Sample.start
  = (Thrown quota,
     sent Sample.start
       (Service.storyRequest "A cat learns to fly" [Sample.bella] CLAYMATION SHORT))
  /\ @Service.generateScenePreview offline "A cat" Sample.start
     = (Thrown quota, sent Sample.start (Service.previewRequest "A cat"))
  /\ @Service.generateProjectIdea offline None Sample.start
     = (Thrown quota, sent Sample.start (Service.ideaRequest None)).
Proof.
  intros quota offline.
  apply (@upstream_error_is_rethrown offline).
  - reflexivity.
  - intros req. reflexivity.
Defined.

Lemma keyed_operations_call_once_witness :
  calls (snd (@Service.generateStoryScenes Sample.keyed
                "A cat learns to fly" [Sample.bella] CLAYMATION SHORT Sample.start))
  = [Service.storyRequest "A cat learns to fly" [Sample.bella] CLAYMATION SHORT]
  /\ calls (snd (@Service.generateScenePreview Sample.keyed "A cat" Sample.start))
     = [Service.previewRequest "A cat"]
  /\ calls (snd (@Service.generateProjectIdea Sample.garbled (Some "cats") Sample.start))
     = [Service.ideaRequest (Some "cats")].
Proof.
  split; [| split].
  - exact (proj1 (@keyed_operations_call_once Sample.keyed
                    "A cat learns to fly" [Sample.bella] CLAYMATION SHORT
                    "A cat" None Sample.start eq_refl)).
  - exact (proj1 (proj2 (@keyed_operations_call_once Sample.keyed
                    "A cat learns to fly" [Sample.bella] CLAYMATION SHORT
                    "A cat" None Sample.start eq_refl))).
  - exact (proj2 (proj2 (@keyed_operations_call_once Sample.garbled
                    "A cat learns to fly" [Sample.bella] CLAYMATION SHORT
                    "A cat" (Some "cats") Sample.start eq_refl))).
Defined.

Lemma story_scenes_of_a_non_array_witness :
  @Service.generateStoryScenes (Sample.platform_with (Some "secret") (Sample.says (Some "{}")))
    "A cat learns to fly" [Sample.bella] CLAYMATION SHORT Sample.start
  = (Thrown TypeError,
     sent Sample.start
       (Service.storyRequest "A cat learns to fly" [Sample.bella] CLAYMATION SHORT)).
Proof.
  apply (@story_scenes_of_a_non_array
           (Sample.platform_with (Some "secret") (Sample.says (Some "{}")))
           "A cat learns to fly" [Sample.bella] CLAYMATION SHORT Sample.start
           {| text := Some "{}"; candidates := None |} (JObject [])).
  - reflexivity.
  - reflexivity.
  - vm_compute. reflexivity.
  - discriminate.
Defined.

Section ProjectIdeas.
Context {platform : Platform}.
Import Service.

Lemma assign_same (k : string) (v : JSON) (props : list (string * JSON)) :
  Value.lookup k props = Some v -> Value.assign k v props = props.
Proof.
  induction props as [|[k' v'] props IH]; simpl; [discriminate |].
  destruct (String.eqb_spec k' k) as [->|Hne].
  - now intros [= ->].
  - intros H. now rewrite IH.
Qed.

(** A record with a truthy [id] comes back as it is, and nothing is drawn. *)
Lemma keep_id (props : list (string * JSON)) (v : JSON) (w : World) :
  Value.lookup "id" props = Some v ->
  Value.truthy (Some v) = true ->
  keep_or_assign_id (JObject props) w = (Returned (JObject props), w).
Proof.
  intros Hid Htruthy. unfold keep_or_assign_id, bind, lift. cbn [Value.get].
  rewrite Hid, Htruthy. unfold ret, with_id. cbn [Value.spread].
  now rewrite assign_same.
Qed.

(** A record without a truthy [id] gets the next identifier drawn. *)
Lemma assign_id (props : list (string * JSON)) (w : World) :
  Value.truthy (Value.lookup "id" props) = false ->
  keep_or_assign_id (JObject props) w = add_id (JObject props) w.
Proof.
  intros Hfalsy. unfold keep_or_assign_id, bind, lift. cbn [Value.get].
  destruct (Value.lookup "id" props) as [v|]; [| reflexivity].
  now rewrite Hfalsy.
Qed.

Lemma mapM_keep_ids (records : list (list (string * JSON))) (w : World) :
  (forall props, In props records ->
     exists v, Value.lookup "id" props = Some v /\ Value.truthy (Some v) = true) ->
  mapM keep_or_assign_id (map JObject records) w = (Returned (map JObject records), w).
Proof.
  induction records as [|props records IH]; intros Hall; cbn [map mapM].
  - reflexivity.
  - destruct (Hall props (or_introl eq_refl)) as (v & Hid & Htruthy).
    unfold bind at 1. rewrite (keep_id _ _ _ Hid Htruthy).
    unfold bind. rewrite IH by (intros p Hp; apply Hall; now right).
    reflexivity.
Qed.

Lemma mapM_assign_ids (records : list (list (string * JSON))) (w : World) :
  (forall props, In props records -> Value.truthy (Value.lookup "id" props) = false) ->
  mapM keep_or_assign_id (map JObject records) w = mapM add_id (map JObject records) w.
Proof.
  revert w. induction records as [|props records IH]; intros w Hall; cbn [map mapM].
  - reflexivity.
  - unfold bind at 1 3. rewrite assign_id by (apply Hall; now left).
    destruct (add_id (JObject props) w) as [[y|e] w1]; [| reflexivity].
    unfold bind. rewrite IH by (intros p Hp; apply Hall; now right).
    reflexivity.
Qed.

Lemma idea_after_the_call (topic : option string) (w : World) (r : response)
  (props : list (string * JSON)) (items : list JSON) :
  Js.truthy_opt API_KEY = true ->
  generateContent (List.length (calls w)) (ideaRequest topic) = Returned r ->
  JSON_parse (Js.or_else (text r) "{}") = Some (JObject props) ->
  Value.lookup "characters" props = Some (JArray items) ->
  generateProjectIdea topic w
  = match mapM keep_or_assign_id items (sent w (ideaRequest topic)) with
    | (Returned cs, w') =>
        (Returned (JObject (Value.assign "characters" (JArray cs) props)), w')
    | (Thrown e, w') => (Thrown e, w')
    end.
Proof.
  intros Hkey Hcall Hparse Hcs.
  unfold generateProjectIdea. rewrite bind_getClient by assumption.
  unfold bind at 1. unfold ai_models_generateContent. rewrite Hcall.
  unfold bind at 1. unfold parse. rewrite Hparse. unfold ret at 1.
  unfold bind at 1. unfold lift. cbn [Value.get]. rewrite Hcs.
  cbn [Value.truthy map_of]. unfold bind, sent.
  destruct (mapM keep_or_assign_id items _) as [[cs|e] w']; reflexivity.
Qed.

(** X5: when every character record of the response carries a truthy
    [id], [generateProjectIdea] returns the parsed document as it is and
    draws no identifier; it does so whether or not two records carry the
    same [id]. *)
Theorem project_idea_keeps_the_ids_it_is_given
  (topic : option string) (w : World) (r : response)
  (props : list (string * JSON)) (records : list (list (string * JSON))) :
  Js.truthy_opt API_KEY = true ->
  generateContent (List.length (calls w)) (ideaRequest topic) = Returned r ->
  JSON_parse (Js.or_else (text r) "{}") = Some (JObject props) ->
  Value.lookup "characters" props = Some (JArray (map JObject records)) ->
  (forall record, In record records ->
     exists v, Value.lookup "id" record = Some v /\ Value.truthy (Some v) = true) ->
  generateProjectIdea topic w
  = (Returned (JObject props), sent w (ideaRequest topic)).
Proof.
  intros Hkey Hcall Hparse Hcs Hids.
  rewrite (idea_after_the_call topic w r props _ Hkey Hcall Hparse Hcs).
  rewrite mapM_keep_ids by assumption.
  now rewrite assign_same.
Qed.

(** X6: when no character record of the response carries a truthy [id],
    each record gets the next identifier drawn, in order, under [id], and
    the list so made replaces [characters] in the document returned. *)
Theorem project_idea_assigns_missing_ids
  (topic : option string) (w : World) (r : response)
  (props : list (string * JSON)) (records : list (list (string * JSON))) :
  Js.truthy_opt API_KEY = true ->
  generateContent (List.length (calls w)) (ideaRequest topic) = Returned r ->
  JSON_parse (Js.or_else (text r) "{}") = Some (JObject props) ->
  Value.lookup "characters" props = Some (JArray (map JObject records)) ->
  (forall record, In record records ->
     Value.truthy (Value.lookup "id" record) = false) ->
  generateProjectIdea topic w
  = (Returned
       (JObject
          (Value.assign "characters"
             (JArray (map (fun p => Spec.record_with_id (fst p) (snd p))
                          (combine records
                             (Spec.draws (issued w) (List.length records)))))
             props)),
     drawn (sent w (ideaRequest topic)) (List.length records)).
Proof.
  intros Hkey Hcall Hparse Hcs Hids.
  rewrite (idea_after_the_call topic w r props _ Hkey Hcall Hparse Hcs).
  rewrite mapM_assign_ids by assumption.
  now rewrite map_add_id.
Qed.

(** X7: a parsed document other than [null] without a truthy
    [characters] is returned as it is: nothing of it is checked and no
    identifier is drawn.  This is what an absent or empty response text
    comes to, the document [{}] standing in for it. *)
Theorem project_idea_without_characters
  (topic : option string) (w : World) (r : response) (parsed : JSON) :
  Js.truthy_opt API_KEY = true ->
  generateContent (List.length (calls w)) (ideaRequest topic) = Returned r ->
  JSON_parse (Js.or_else (text r) "{}") = Some parsed ->
  parsed <> JNull ->
  (forall cs, Value.get parsed "characters" = Returned cs -> Value.truthy cs = false) ->
  generateProjectIdea topic w = (Returned parsed, sent w (ideaRequest topic)).
Proof.
  intros Hkey Hcall Hparse Hnull Hcs.
  unfold generateProjectIdea. rewrite bind_getClient by assumption.
  unfold bind at 1. unfold ai_models_generateContent. rewrite Hcall.
  unfold bind at 1. unfold parse. rewrite Hparse. unfold ret at 1.
  unfold bind, lift.
  destruct (Value.get parsed "characters") as [cs|e] eqn:G.
  - now rewrite (Hcs cs eq_refl).
  - destruct parsed; cbn in G; try discriminate. now elim Hnull.
Qed.

End ProjectIdeas.

Lemma project_idea_keeps_the_ids_it_is_given_witness :
  let q := Js.dq in
  let t := "{" ++ q ++ "name" ++ q ++ ": " ++ q ++ "Cats" ++ q ++ ", "
           ++ q ++ "characters" ++ q ++ ": ["
           ++ "{" ++ q ++ "id" ++ q ++ ": " ++ q ++ "c1" ++ q ++ ", "
                  ++ q ++ "name" ++ q ++ ": " ++ q ++ "Tom" ++ q ++ "}, "
           ++ "{" ++ q ++ "id" ++ q ++ ": " ++ q ++ "c1" ++ q ++ ", "
                  ++ q ++ "name" ++ q ++ ": " ++ q ++ "Tim" ++ q ++ "}]}" in
  @Service.generateProjectIdea (Sample.platform_with (Some "secret") (Sample.says (Some t)))
    (Some "cats") Sample.start
  = (Returned
       (JObject [("name", JString "Cats");
                 ("characters",
                  JArray [JObject [("id", JString "c1"); ("name", JString "Tom")];
                          JObject [("id", JString "c1"); ("name", JString "Tim")]])]),
     sent Sample.start (Service.ideaRequest (Some "cats"))).
Proof.
  intros q t.
  apply (@project_idea_keeps_the_ids_it_is_given
           (Sample.platform_with (Some "secret") (Sample.says (Some t)))
           (Some "cats") Sample.start {| text := Some t; candidates := None |}
           [("name", JString "Cats");
            ("characters",
             JArray [JObject [("id", JString "c1"); ("name", JString "Tom")];
                     JObject [("id", JString "c1"); ("name", JString "Tim")]])]
           [[("id", JString "c1"); ("name", JString "Tom")];
            [("id", JString "c1"); ("name", JString "Tim")]]).
  - reflexivity.
  - reflexivity.
  - vm_compute. reflexivity.
  - reflexivity.
  - intros record [<- | [<- | []]]; exists (JString "c1"); split; reflexivity.
Defined.

Lemma project_idea_assigns_missing_ids_witness :
  let q := Js.dq in
  let t := "{" ++ q ++ "characters" ++ q ++ ": ["
           ++ "{" ++ q ++ "name" ++ q ++ ": " ++ q ++ "Tom" ++ q ++ "}, "
           ++ "{" ++ q ++ "id" ++ q ++ ": " ++ q ++ q ++ ", "
                  ++ q ++ "name" ++ q ++ ": " ++ q ++ "Tim" ++ q ++ "}]}" in
  fst (@Service.generateProjectIdea
         (Sample.platform_with (Some "secret") (Sample.says (Some t)))
         None Sample.start)
  = Returned
      (JObject [("characters",
                 JArray [JObject [("name", JString "Tom"); ("id", JString "id-")];
                         JObject [("id", JString "id-u"); ("name", JString "Tim")]])]).
Proof.
  intros q t.
  rewrite (@project_idea_assigns_missing_ids
             (Sample.platform_with (Some "secret") (Sample.says (Some t)))
             None Sample.start {| text := Some t; candidates := None |}
             [("characters",
               JArray [JObject [("name", JString "Tom")];
                       JObject [("id", JString EmptyString); ("name", JString "Tim")]])]
             [[("name", JString "Tom")];
              [("id", JString EmptyString); ("name", JString "Tim")]]).
  - reflexivity.
  - reflexivity.
  - reflexivity.
  - vm_compute. reflexivity.
  - reflexivity.
  - intros record [<- | [<- | []]]; reflexivity.
Defined.

Lemma project_idea_without_characters_witness :
  @Service.generateProjectIdea Sample.silent (Some "cats") Sample.start
  = (Returned (JObject []), sent Sample.start (Service.ideaRequest (Some "cats"))).
Proof.
  apply (@project_idea_without_characters Sample.silent (Some "cats") Sample.start
           {| text := None; candidates := None |} (JObject [])).
  - reflexivity.
  - reflexivity.
  - vm_compute. reflexivity.
  - discriminate.
  - intros cs [= <-]. reflexivity.
Defined.

(** ** The directive *)

Section Directive.
Import Service.

Lemma join_in (sep x : string) (xs : list string) :
  In x xs -> exists a b, join sep xs = a ++ x ++ b.
Proof.
  induction xs as [|x0 xs IH]; intros Hin; [destruct Hin |].
  destruct xs as [|x1 xs].
  - destruct Hin as [-> | []]. exists EmptyString, EmptyString.
    cbn. now rewrite append_empty_r.
  - change (join sep (x0 :: x1 :: xs)) with (x0 ++ sep ++ join sep (x1 :: xs)).
    destruct Hin as [-> | Hin].
    + exists EmptyString, (sep ++ join sep (x1 :: xs)). reflexivity.
    + destruct (IH Hin) as (a & b & ->).
      exists (x0 ++ sep ++ a), b. now rewrite !append_assoc.
Qed.

Lemma occurs_here (s rest : string) :
  exists before after, s ++ rest = before ++ s ++ after.
Proof. now exists EmptyString, rest. Qed.

Lemma occurs_later (x t s : string) :
  (exists before after, t = before ++ s ++ after) ->
  exists before after, x ++ t = before ++ s ++ after.
Proof.
  intros (before & after & ->). exists (x ++ before), after.
  now rewrite append_assoc.
Qed.

Lemma occurs_in_some (t s : string) :
  (exists before after, t = before ++ s ++ after) ->
  exists before after, Some t = Some (before ++ s ++ after).
Proof. intros (before & after & ->). now exists before, after. Qed.

Lemma characterLine_begins (c : Character) :
  exists tail,
    characterLine c
    = ("- " ++ character_name c ++ ": " ++ description c
       ++ ". Visual features: " ++ features c ++ ". ") ++ tail.
Proof.
  eexists. unfold characterLine. rewrite !append_assoc. reflexivity.
Qed.

(** X8: the directive of [generateStoryScenes] states every character
    of the list, by name, description and visual features; whatever the
    list, also an empty one, it names the animation style, and the story
    idea is the content of the request. *)
Theorem directive_states_characters_and_style
  (idea : string) (characters : list Character) (style : AnimationStyle)
  (type : VideoType) :
  (forall c,
     In c characters ->
     exists before after,
       systemInstruction (storyRequest idea characters style type)
       = Some (before
               ++ ("- " ++ character_name c ++ ": " ++ description c
                   ++ ". Visual features: " ++ features c ++ ". ")
               ++ after))
  /\ (exists before after,
        systemInstruction (storyRequest idea characters style type)
        = Some (before ++ AnimationStyle_value style ++ after))
  /\ contents (storyRequest idea characters style type) = "Story Idea: " ++ idea.
Proof.
  split; [| split].
  - intros c Hin.
    destruct (join_in Js.nl (characterLine c) (map characterLine characters))
      as (a & b & Hjoin); [now apply in_map |].
    destruct (characterLine_begins c) as (tail & Hline).
    unfold storyRequest. cbn [systemInstruction]. rewrite Hjoin, Hline.
    generalize ("- " ++ character_name c ++ ": " ++ description c
                ++ ". Visual features: " ++ features c ++ ". ").
    intros line. apply occurs_in_some.
    unfold storySystemInstruction. cbv zeta. rewrite !append_assoc.
    repeat first [apply occurs_here | apply occurs_later].
  - unfold storyRequest. cbn [systemInstruction]. apply occurs_in_some.
    unfold storySystemInstruction. cbv zeta.
    generalize (AnimationStyle_value style). intros name.
    repeat first [apply occurs_here | apply occurs_later].
  - reflexivity.
Qed.

End Directive.

Lemma directive_states_characters_and_style_witness :
  (exists before after,
     systemInstruction
       (Service.storyRequest "A cat learns to fly" [Sample.bella; Sample.mia]
          ANIME_SHINKAI LONG)
     = Some (before
             ++ "- Mia: The cute toddler sister. Small, huge eyes, mischievous.. Visual features: High red ponytail, cute casual clothes.. "
             ++ after))
  /\ (exists before after,
        systemInstruction (Service.storyRequest "A cat learns to fly" [] ANIME_SHINKAI LONG)
        = Some (before ++ "Anime Makoto Shinkai Style" ++ after))
  /\ contents (Service.storyRequest "A cat learns to fly" [] ANIME_SHINKAI LONG)
     = "Story Idea: A cat learns to fly".
Proof.
  split; [| split].
  - exact (proj1 (directive_states_characters_and_style
                    "A cat learns to fly" [Sample.bella; Sample.mia] ANIME_SHINKAI LONG)
                 Sample.mia (or_intror (or_introl eq_refl))).
  - exact (proj1 (proj2 (directive_states_characters_and_style
                           "A cat learns to fly" [] ANIME_SHINKAI LONG))).
  - exact (proj2 (proj2 (directive_states_characters_and_style
                           "A cat learns to fly" [] ANIME_SHINKAI LONG))).
Defined.

(** ** The archive of an export *)

Section ArchiveContents.
Import Storyboard.

Lemma split_without_separator (sep : ascii) (s : string) :
  ~ In sep (list_ascii_of_string s) -> Js.split sep s = [s].
Proof.
  induction s as [|c s IH]; intros Hnot; cbn [Js.split].
  - reflexivity.
  - cbn [list_ascii_of_string] in Hnot.
    destruct (Ascii.eqb_spec c sep) as [->|Hne].
    + elim Hnot. now left.
    + rewrite IH by (intros Hin; apply Hnot; now right). reflexivity.
Qed.

Lemma sceneFile_payload (s : Scene) (zip : JSZip.t) :
  sceneFile s zip
  = match Archive.payload s with
    | Some b => JSZip.file (imageName s) {| JSZip.data := b; JSZip.base64 := true |} zip
    | None => zip
    end.
Proof.
  unfold sceneFile, Archive.payload.
  destruct (generatedImageUrl s) as [url|]; [| reflexivity].
  destruct (Js.truthy_string url); [| reflexivity].
  destruct (nth_error (Js.split "," url) 1) as [b|]; [| reflexivity].
  destruct (Js.truthy_string b); reflexivity.
Qed.

Lemma payload_of_data_uri (scene : Scene) (data : string) :
  data <> EmptyString ->
  ~ In ","%char (list_ascii_of_string data) ->
  Archive.payload (set_generatedImageUrl scene ("data:image/png;base64," ++ data))
  = Some data.
Proof.
  intros Hne Hcomma.
  unfold Archive.payload. cbn [generatedImageUrl set_generatedImageUrl].
  cbn [append Js.truthy_string Js.split Ascii.eqb Bool.eqb].
  rewrite split_without_separator by assumption. cbn [nth_error].
  destruct data; [now elim Hne | reflexivity].
Qed.

(** X9: the data URI that [generateScenePreview] builds from non-empty
    inline data without a comma, once stored as a scene's image, is
    exported as that scene's image file with exactly the inline data as
    its base64 content. *)
Theorem generated_image_is_filed_as_generated
  (scene : Scene) (data : string) (zip : JSZip.t) :
  data <> EmptyString ->
  ~ In ","%char (list_ascii_of_string data) ->
  Archive.payload (set_generatedImageUrl scene ("data:image/png;base64," ++ data))
  = Some data
  /\ sceneFile (set_generatedImageUrl scene ("data:image/png;base64," ++ data)) zip
     = JSZip.file (imageName scene)
         {| JSZip.data := data; JSZip.base64 := true |} zip.
Proof.
  intros Hne Hcomma.
  pose proof (payload_of_data_uri scene data Hne Hcomma) as Hpayload.
  split; [exact Hpayload |].
  rewrite sceneFile_payload, Hpayload. reflexivity.
Qed.

Lemma names_file_eq (name : string) (e : JSZip.entry) (zip : JSZip.t) :
  JSZip.names (JSZip.file name e zip)
  = if existsb (String.eqb name) (JSZip.names zip)
    then JSZip.names zip else (JSZip.names zip ++ [name])%list.
Proof.
  unfold JSZip.names.
  induction zip as [|[n e'] zip IH]; cbn [JSZip.file map existsb fst app].
  - reflexivity.
  - rewrite (String.eqb_sym name n).
    destruct (String.eqb n name) eqn:E; cbn [map fst orb].
    + apply String.eqb_eq in E. now subst.
    + rewrite IH. now destruct (existsb (String.eqb name) (map fst zip)).
Qed.

Lemma file_keeps_names_distinct (name : string) (e : JSZip.entry) (zip : JSZip.t) :
  NoDup (JSZip.names zip) -> NoDup (JSZip.names (JSZip.file name e zip)).
Proof.
  intros Hd. rewrite names_file_eq.
  destruct (existsb (String.eqb name) (JSZip.names zip)) eqn:E; [assumption |].
  apply NoDup_app; [assumption | repeat constructor; intros [] |].
  intros x Hx [Heq | []]. subst x.
  assert (existsb (String.eqb name) (JSZip.names zip) = true); [| congruence].
  apply existsb_exists. exists name. split; [assumption | apply String.eqb_refl].
Qed.

Lemma file_length (name : string) (e : JSZip.entry) (zip : JSZip.t) :
  (List.length (JSZip.file name e zip) <= S (List.length zip))%nat.
Proof.
  induction zip as [|[n e'] zip IH]; cbn [JSZip.file List.length].
  - lia.
  - destruct (String.eqb n name); cbn [List.length]; lia.
Qed.

Lemma entry_of_file_same (name : string) (e : JSZip.entry) (zip : JSZip.t) :
  Archive.entry_of name (JSZip.file name e zip) = Some e.
Proof. unfold Archive.entry_of. now rewrite find_file. Qed.

Lemma entry_of_file_other (name other : string) (e : JSZip.entry) (zip : JSZip.t) :
  other <> name ->
  Archive.entry_of other (JSZip.file name e zip) = Archive.entry_of other zip.
Proof.
  intros Hne. unfold Archive.entry_of.
  induction zip as [|[n e'] zip IH]; cbn [JSZip.file find fst].
  - destruct (String.eqb_spec name other); [congruence | reflexivity].
  - destruct (String.eqb_spec n name) as [->|Hn]; cbn [find fst].
    + destruct (String.eqb_spec name other); [congruence | reflexivity].
    + destruct (String.eqb n other); [reflexivity | exact IH].
Qed.

Lemma forEach_archive (scenes : list Scene) (zip : JSZip.t) (content : string) :
  fst (fold_left exportScene scenes (zip, content))
  = fold_left (fun z s => sceneFile s z) scenes zip.
Proof.
  revert zip content. induction scenes as [|s scenes IH]; intros zip content.
  - reflexivity.
  - cbn [fold_left]. unfold exportScene at 2. apply IH.
Qed.

Lemma archive_of_export (project : Project) :
  archive (handleDownloadAssets project)
  = JSZip.file manifestName
      {| JSZip.data := scriptHeader project
                       ++ String.concat "" (map sceneText (scenes project));
         JSZip.base64 := false |}
      (fold_left (fun z s => sceneFile s z) (scenes project) JSZip.empty).
Proof.
  unfold handleDownloadAssets.
  pose proof (forEach_scriptContent (scenes project) JSZip.empty (scriptHeader project)) as Ht.
  pose proof (forEach_archive (scenes project) JSZip.empty (scriptHeader project)) as Hz.
  destruct (fold_left exportScene (scenes project) (JSZip.empty, scriptHeader project))
    as [zip content].
  cbn [fst snd archive] in *. now subst.
Qed.

Lemma imageName_is_not_the_manifest (s : Scene) : imageName s <> manifestName.
Proof. unfold imageName, manifestName. cbn [append]. discriminate. Qed.

(** X10: whatever the scenes, the archive of an export holds the
    manifest, holds no two entries of one name, and holds at most one
    entry per scene besides the manifest. *)
Theorem export_archive_shape (project : Project) :
  In manifestName (JSZip.names (archive (handleDownloadAssets project)))
  /\ NoDup (JSZip.names (archive (handleDownloadAssets project)))
  /\ (List.length (archive (handleDownloadAssets project))
      <= 1 + List.length (scenes project))%nat.
Proof.
  rewrite archive_of_export.
  set (e := {| JSZip.data := _; JSZip.base64 := false |}).
  assert (Hloop : forall l zip,
            NoDup (JSZip.names zip) ->
            NoDup (JSZip.names (fold_left (fun z s => sceneFile s z) l zip))
            /\ (List.length (fold_left (fun z s => sceneFile s z) l zip)
                <= List.length zip + List.length l)%nat).
  { induction l as [|s l IH]; intros zip Hd; cbn [fold_left List.length].
    - split; [exact Hd | lia].
    - rewrite sceneFile_payload.
      destruct (Archive.payload s) as [b|].
      + destruct (IH (JSZip.file (imageName s)
                        {| JSZip.data := b; JSZip.base64 := true |} zip)) as [H1 H2].
        { now apply file_keeps_names_distinct. }
        split; [assumption |].
        pose proof (file_length (imageName s)
                      {| JSZip.data := b; JSZip.base64 := true |} zip). lia.
      + destruct (IH zip Hd) as [H1 H2]. split; [assumption | lia]. }
  destruct (Hloop (scenes project) JSZip.empty) as [Hd Hlen]; [constructor |].
  split; [| split].
  - rewrite names_file_eq.
    destruct (existsb (String.eqb manifestName) _) eqn:E.
    + apply existsb_exists in E as (x & Hx & Heq).
      apply String.eqb_eq in Heq. now subst.
    + apply in_or_app. right. now left.
  - now apply file_keeps_names_distinct.
  - pose proof (file_length manifestName e
                  (fold_left (fun z s => sceneFile s z) (scenes project) JSZip.empty)).
    cbn [List.length JSZip.empty] in Hlen. lia.
Qed.

Lemma entry_after_loop (name : string) (scenes : list Scene) (zip : JSZip.t) :
  (forall s, In s scenes -> Archive.payload s <> None -> imageName s <> name) ->
  Archive.entry_of name (fold_left (fun z s => sceneFile s z) scenes zip)
  = Archive.entry_of name zip.
Proof.
  revert zip. induction scenes as [|s scenes IH]; intros zip Hother; cbn [fold_left].
  - reflexivity.
  - rewrite IH by (intros s' Hs'; apply Hother; now right).
    rewrite sceneFile_payload.
    destruct (Archive.payload s) as [b|] eqn:P; [| reflexivity].
    apply entry_of_file_other. intros Heq.
    apply (Hother s (or_introl eq_refl)); [congruence | now symmetry].
Qed.

(** X11: the image file of a scene holds the payload of the last scene
    of the list that has a payload and that image name: a scene with a
    payload is exported under its name with its own data when no later
    scene with a payload shares the name, and a name that no scene with
    a payload bears has no entry. *)
Theorem export_files_the_last_payload
  (project : Project) (before after : list Scene) (s : Scene) (b : string) :
  scenes project = (before ++ s :: after)%list ->
  Archive.payload s = Some b ->
  (forall s', In s' after -> Archive.payload s' <> None -> imageName s' <> imageName s) ->
  Archive.entry_of (imageName s) (archive (handleDownloadAssets project))
  = Some {| JSZip.data := b; JSZip.base64 := true |}.
Proof.
  intros Hscenes Hpayload Hafter.
  rewrite archive_of_export, Hscenes.
  rewrite entry_of_file_other by apply imageName_is_not_the_manifest.
  rewrite fold_left_app. cbn [fold_left].
  rewrite entry_after_loop by assumption.
  rewrite sceneFile_payload, Hpayload. apply entry_of_file_same.
Qed.

(** X12: a name other than the manifest's that no scene with a payload
    bears has no entry in the archive: a scene without a usable payload
    is exported as no file. *)
Theorem export_files_nothing_without_payload (project : Project) (name : string) :
  name <> manifestName ->
  (forall s, In s (scenes project) -> Archive.payload s <> None -> imageName s <> name) ->
  Archive.entry_of name (archive (handleDownloadAssets project)) = None.
Proof.
  intros Hname Hnone.
  rewrite archive_of_export, entry_of_file_other by assumption.
  now rewrite entry_after_loop.
Qed.

Lemma safe_after_replace_and_lower (c : ascii) :
  Archive.safe
    (let r := if Js.is_digit c || Js.is_lower c || Js.is_upper c then c else "_"%char in
     if Js.is_upper r then ascii_of_nat (nat_of_ascii r + 32) else r) = true.
Proof.
  destruct c as [[] [] [] [] [] [] [] []]; vm_compute; reflexivity.
Qed.

Lemma stem_is_safe (name : string) :
  Archive.all_safe (Js.toLowerCase (Js.replace_non_alnum "_" name)) = true
  /\ String.length (Js.toLowerCase (Js.replace_non_alnum "_" name)) = String.length name.
Proof.
  induction name as [|c name [IH1 IH2]];
    cbn [Js.replace_non_alnum Js.toLowerCase Archive.all_safe String.length].
  - now split.
  - split; [| now rewrite IH2].
    rewrite IH1, andb_true_r. apply safe_after_replace_and_lower.
Qed.

(** X13: the name of the download is a stem as long as the project
    name, made of lower-case letters, digits and underscores only,
    followed by [_assets.zip]. *)
Theorem download_name_is_safe (project : Project) :
  exists stem,
    download (handleDownloadAssets project) = stem ++ "_assets.zip"
    /\ Archive.all_safe stem = true
    /\ String.length stem = String.length (project_name project).
Proof.
  exists (Js.toLowerCase (Js.replace_non_alnum "_" (project_name project))).
  split.
  - unfold handleDownloadAssets.
    now destruct (fold_left exportScene (scenes project) (JSZip.empty, scriptHeader project)).
  - apply stem_is_safe.
Qed.

Lemma sceneFile_after_edit (s : Scene) (text : string) (zip : JSZip.t) :
  sceneFile (set_visualPrompt s text) zip = sceneFile s zip.
Proof. reflexivity. Qed.

Lemma loop_after_edit (scenes : list Scene) (id text : string) (zip : JSZip.t) :
  fold_left (fun z s => sceneFile s z) (editScenePrompt scenes id text) zip
  = fold_left (fun z s => sceneFile s z) scenes zip.
Proof.
  unfold editScenePrompt. revert zip.
  induction scenes as [|s scenes IH]; intros zip; cbn [map fold_left].
  - reflexivity.
  - rewrite IH. now destruct (String.eqb (scene_id s) id).
Qed.

(** X14: saving an edited prompt changes no image file of the export:
    every entry of the archive other than the manifest, and the name of
    the download, are what they were before the edit. *)
Theorem saved_prompt_keeps_the_image_files
  (project : Project) (text id name : string) :
  name <> manifestName ->
  Archive.entry_of name (archive (handleDownloadAssets (handleSavePrompt project text id)))
  = Archive.entry_of name (archive (handleDownloadAssets project))
  /\ download (handleDownloadAssets (handleSavePrompt project text id))
     = download (handleDownloadAssets project).
Proof.
  intros Hname. split.
  - rewrite !archive_of_export, !entry_of_file_other by assumption.
    unfold handleSavePrompt. cbn [scenes set_scenes]. now rewrite loop_after_edit.
  - unfold handleDownloadAssets at 1 2.
    destruct (fold_left exportScene (scenes (handleSavePrompt project text id)) _).
    destruct (fold_left exportScene (scenes project) _). reflexivity.
Qed.

End ArchiveContents.

Lemma generated_image_is_filed_as_generated_witness :
  Storyboard.sceneFile
    (Storyboard.set_generatedImageUrl Sample.first "data:image/png;base64,iVBORw0KGgo=")
    JSZip.empty
  = [("scene_001.png", {| JSZip.data := "iVBORw0KGgo="; JSZip.base64 := true |})].
Proof.
  refine (proj2 (generated_image_is_filed_as_generated
                   Sample.first "iVBORw0KGgo=" JSZip.empty _ _)).
  - discriminate.
  - cbn. intuition discriminate.
Defined.

Lemma export_files_the_last_payload_witness :
  let earlier := Sample.scene "a" 1 (Some "data:image/png;base64,AAAA") in
  let later := Sample.scene "b" 1 (Some "data:image/png;base64,BBBB") in
  Archive.entry_of "scene_001.png"
    (Storyboard.archive (Storyboard.handleDownloadAssets (Sample.project_of [earlier; later])))
  = Some {| JSZip.data := "BBBB"; JSZip.base64 := true |}.
Proof.
  intros earlier later.
  apply (export_files_the_last_payload
           (Sample.project_of [earlier; later]) [earlier] [] later "BBBB").
  - reflexivity.
  - reflexivity.
  - intros s' [].
Defined.

Lemma export_files_nothing_without_payload_witness :
  Archive.entry_of "scene_003.png"
    (Storyboard.archive (Storyboard.handleDownloadAssets (Sample.project_of [Sample.bare])))
  = None.
Proof.
  apply (export_files_nothing_without_payload (Sample.project_of [Sample.bare])
           "scene_003.png").
  - discriminate.
  - intros s [<- | []] Hpayload. now elim Hpayload.
Defined.

Lemma saved_prompt_keeps_the_image_files_witness :
  Archive.entry_of "scene_002.png"
    (Storyboard.archive
       (Storyboard.handleDownloadAssets
          (Storyboard.handleSavePrompt Sample.in_order "A dog on the moon" "b")))
  = Archive.entry_of "scene_002.png"
      (Storyboard.archive (Storyboard.handleDownloadAssets Sample.in_order)).
Proof.
  refine (proj1 (saved_prompt_keeps_the_image_files
                   Sample.in_order "A dog on the moon" "b" "scene_002.png" _)).
  discriminate.
Defined.

(** ** The image files and their names *)

Section FiledImages.
Import Storyboard.

Lemma entry_survives_file (name n : string) (e : JSZip.entry) (zip : JSZip.t) :
  Archive.entry_of name zip <> None ->
  Archive.entry_of name (JSZip.file n e zip) <> None.
Proof.
  intros H. destruct (String.eqb_spec name n) as [->|Hne].
  - now rewrite entry_of_file_same.
  - now rewrite entry_of_file_other.
Qed.

Lemma entry_survives_loop (name : string) (l : list Scene) (zip : JSZip.t) :
  Archive.entry_of name zip <> None ->
  Archive.entry_of name (fold_left (fun z s => sceneFile s z) l zip) <> None.
Proof.
  revert zip. induction l as [|s l IH]; intros zip H; cbn [fold_left].
  - exact H.
  - apply IH. rewrite sceneFile_payload.
    destruct (Archive.payload s); [now apply entry_survives_file | exact H].
Qed.

Lemma payload_is_filed (s : Scene) (b : string) (l : list Scene) (zip : JSZip.t) :
  In s l -> Archive.payload s = Some b ->
  Archive.entry_of (imageName s) (fold_left (fun z s' => sceneFile s' z) l zip) <> None.
Proof.
  revert zip. induction l as [|s0 l IH]; intros zip Hin Hpayload; [destruct Hin |].
  cbn [fold_left]. destruct Hin as [-> | Hin].
  - apply entry_survives_loop. rewrite sceneFile_payload, Hpayload.
    now rewrite entry_of_file_same.
  - now apply IH.
Qed.

Lemma own_payload_is_filed (l : list Scene) (s : Scene) (b : string) :
  NoDup (map imageName l) ->
  In s l -> Archive.payload s = Some b ->
  Archive.entry_of (imageName s) (fold_left (fun z s' => sceneFile s' z) l JSZip.empty)
  = Some {| JSZip.data := b; JSZip.base64 := true |}.
Proof.
  intros Hd Hin Hpayload.
  apply in_split in Hin as (before & after & ->).
  rewrite map_app in Hd. cbn [map] in Hd. apply NoDup_remove_2 in Hd.
  rewrite fold_left_app. cbn [fold_left].
  rewrite entry_after_loop.
  - rewrite sceneFile_payload, Hpayload. apply entry_of_file_same.
  - intros s' Hs' _ Heq. apply Hd, in_or_app. right.
    rewrite <- Heq. now apply in_map.
Qed.

Lemma sceneText_names_the_file (s : Scene) :
  Js.truthy_opt (generatedImageUrl s) = true ->
  exists a b,
    sceneText s = a ++ ("Generated Image File: " ++ imageName s ++ Js.nl) ++ b.
Proof.
  intros H.
  exists ("SCENE " ++ Js.number_to_string (sceneNumber s) ++ Js.nl
          ++ "Duration: " ++ duration s ++ Js.nl
          ++ "Script: " ++ Js.dq ++ script s ++ Js.dq ++ Js.nl
          ++ "Visual Prompt: " ++ visualPrompt s ++ Js.nl).
  exists ("------------------------------------------------" ++ Js.nl ++ Js.nl).
  unfold sceneText. rewrite H. rewrite !append_assoc. reflexivity.
Qed.

(** C6: when every scene number of the project lies in 1..999, the
    export names a scene's image file [scene_], the number in three
    digits, [.png]: every scene with a payload is filed under that name,
    every scene with a stored image has that name on its line of the
    manifest, and the archive holds no entry besides the manifest and
    files so named.  When the scene numbers are pairwise distinct so are
    these names, and the file of a scene holds that scene's payload. *)
Theorem export_image_names (project : Project) :
  (forall s, In s (scenes project) -> 1 <= sceneNumber s <= 999) ->
  (forall s, In s (scenes project) ->
             imageName s = Spec.image_filename (sceneNumber s))
  /\ (forall s b,
        In s (scenes project) -> Archive.payload s = Some b ->
        Archive.entry_of (Spec.image_filename (sceneNumber s))
          (archive (handleDownloadAssets project)) <> None)
  /\ (forall s,
        In s (scenes project) -> Js.truthy_opt (generatedImageUrl s) = true ->
        exists before after,
          manifest (handleDownloadAssets project)
          = Some (before
                  ++ ("Generated Image File: "
                      ++ Spec.image_filename (sceneNumber s) ++ Js.nl)
                  ++ after))
  /\ (NoDup (map sceneNumber (scenes project)) ->
      NoDup (map imageName (scenes project))
      /\ forall s b,
           In s (scenes project) -> Archive.payload s = Some b ->
           Archive.entry_of (Spec.image_filename (sceneNumber s))
             (archive (handleDownloadAssets project))
           = Some {| JSZip.data := b; JSZip.base64 := true |})
  /\ (forall name,
        In name (JSZip.names (archive (handleDownloadAssets project))) ->
        name = manifestName
        \/ exists s, In s (scenes project)
                     /\ name = Spec.image_filename (sceneNumber s)).
Proof.
  intros Hr.
  assert (Hname : forall s, In s (scenes project) ->
                            imageName s = Spec.image_filename (sceneNumber s)).
  { intros s Hs. apply imageName_pattern, Hr, Hs. }
  split; [exact Hname |]. split; [| split; [| split]].
  - intros s b Hs Hpayload. rewrite <- (Hname s Hs), archive_of_export.
    apply entry_survives_file. now apply payload_is_filed with (b := b).
  - intros s Hs Himage. rewrite <- (Hname s Hs), manifest_text.
    destruct (sceneText_names_the_file s Himage) as (a & b & Htext).
    apply in_split in Hs as (l1 & l2 & Hscenes).
    rewrite Hscenes, concat_split_at, Htext.
    generalize ("Generated Image File: " ++ imageName s ++ Js.nl). intros line.
    exists (scriptHeader project ++ String.concat "" (map sceneText l1) ++ a).
    exists (b ++ String.concat "" (map sceneText l2)).
    rewrite !append_assoc. reflexivity.
  - intros Hd.
    pose proof (imageNames_distinct (scenes project) Hr Hd) as Hnames.
    split; [exact Hnames |].
    intros s b Hs Hpayload. rewrite <- (Hname s Hs), archive_of_export.
    rewrite entry_of_file_other by apply imageName_is_not_the_manifest.
    now apply own_payload_is_filed.
  - intros name. unfold handleDownloadAssets.
    pose proof (names_forEach name (scenes project) JSZip.empty (scriptHeader project)) as H.
    destruct (fold_left exportScene (scenes project) (JSZip.empty, scriptHeader project))
      as [zip content].
    cbn [archive fst] in *. intros Hin.
    apply names_file in Hin as [-> | Hin]; [now left |].
    destruct (H Hin) as [[] | (s & Hs & ->)].
    right. exists s. split; [assumption |]. apply Hname, Hs.
Qed.

End FiledImages.

Lemma export_image_names_witness :
  Storyboard.imageName Sample.second = "scene_002.png"
  /\ NoDup (map Storyboard.imageName (scenes Sample.reversed))
  /\ Archive.entry_of "scene_002.png"
       (Storyboard.archive (Storyboard.handleDownloadAssets Sample.reversed))
     = Some {| JSZip.data := "AAAA"; JSZip.base64 := true |}
  /\ Archive.entry_of "scene_002.png"
       (Storyboard.archive (Storyboard.handleDownloadAssets Sample.reversed))
     <> None.
Proof.
  assert (Hr : forall s, In s (scenes Sample.reversed) -> 1 <= sceneNumber s <= 999).
  { simpl. intros s [<- | [<- | []]]; simpl; lia. }
  destruct (export_image_names Sample.reversed Hr)
    as (Hname & Hfiled & _ & Hdistinct & _).
  assert (Hd : NoDup (map sceneNumber (scenes Sample.reversed))).
  { simpl. repeat constructor; simpl; intuition discriminate. }
  destruct (Hdistinct Hd) as [Hnames Hown].
  split; [exact (Hname Sample.second (or_introl eq_refl)) |].
  split; [exact Hnames |].
  split.
  - exact (Hown Sample.second "AAAA" (or_introl eq_refl) eq_refl).
  - exact (Hfiled Sample.second "AAAA" (or_introl eq_refl) eq_refl).
Defined.

(** ** Image names beyond three digits *)

Section AnyNumber.
Import Storyboard.

Lemma to_int_is_normal (n : Z) : Decimal.norm (Z.to_int n) = Z.to_int n.
Proof. now rewrite <- DecimalZ.to_of, DecimalZ.of_to. Qed.

Lemma number_to_string_inj (n m : Z) :
  Js.number_to_string n = Js.number_to_string m -> n = m.
Proof.
  unfold Js.number_to_string. intros H.
  apply DecimalZ.to_int_inj.
  assert (Hisi : forall z, NilZero.int_of_string (NilZero.string_of_int (Z.to_int z))
                           = Some (Z.to_int z)).
  { intros z. apply NilZero.isi; intros E; pose proof (to_int_is_normal z) as N;
      rewrite E in N; discriminate N. }
  apply (f_equal NilZero.int_of_string) in H. rewrite !Hisi in H. congruence.
Qed.

Lemma nzhead_has_no_leading_zero (u v : Decimal.uint) :
  Decimal.nzhead u <> Decimal.D0 v.
Proof. induction u; cbn; try discriminate. exact IHu. Qed.

(** The numeral of a number begins with the digit 0 only when it is [0]. *)
Lemma leading_zero (n : Z) (t : string) :
  Js.number_to_string n = String "0" t -> t = EmptyString.
Proof.
  unfold Js.number_to_string. pose proof (to_int_is_normal n) as N.
  destruct (Z.to_int n) as [u|u]; cbn [NilZero.string_of_int]; [| discriminate].
  cbn [Decimal.norm] in N. injection N as N.
  destruct u; cbn; try discriminate.
  intros [= <-]. unfold Decimal.unorm in N. cbn [Decimal.nzhead] in N.
  destruct (Decimal.nzhead u) eqn:E; try discriminate N.
  - injection N as <-. reflexivity.
  - exfalso. exact (nzhead_has_no_leading_zero u _ E).
Qed.

Lemma numeral_is_not_empty (n : Z) : Js.number_to_string n <> EmptyString.
Proof.
  unfold Js.number_to_string.
  destruct (Z.to_int n) as [u|u]; cbn; [| discriminate].
  destruct u; cbn; discriminate.
Qed.

Lemma padStart_adds_zeros (s : string) :
  s <> EmptyString ->
  Js.padStart s 3 "0" = s
  \/ Js.padStart s 3 "0" = String "0" s
  \/ Js.padStart s 3 "0" = String "0" (String "0" s).
Proof.
  intros Hne. destruct s as [|c1 [|c2 [|c3 s]]]; [now elim Hne | | |]; cbn; auto.
Qed.

Lemma padded_numeral_inj (n m : Z) :
  Js.padStart (Js.number_to_string n) 3 "0" = Js.padStart (Js.number_to_string m) 3 "0" ->
  n = m.
Proof.
  intros H. apply number_to_string_inj.
  pose proof (leading_zero n) as Zn. pose proof (leading_zero m) as Zm.
  pose proof (numeral_is_not_empty n) as En. pose proof (numeral_is_not_empty m) as Em.
  destruct (padStart_adds_zeros _ En) as [Pn | [Pn | Pn]];
  destruct (padStart_adds_zeros _ Em) as [Pm | [Pm | Pm]];
  rewrite Pn, Pm in H; clear Pn Pm;
  revert H Zn Zm En Em;
  generalize (Js.number_to_string n) as a, (Js.number_to_string m) as b;
  intros a b H Zn Zm En Em.
  - exact H.
  - subst a. now elim Em; apply Zn with (t := b).
  - subst a. pose proof (Zn _ eq_refl). discriminate.
  - subst b. now elim En; apply Zm with (t := a).
  - now injection H.
  - injection H as H. subst a. now elim Em; apply Zn with (t := b).
  - subst b. pose proof (Zm _ eq_refl). discriminate.
  - injection H as H. subst b. now elim En; apply Zm with (t := a).
  - now injection H.
Qed.

Lemma append_length (a b : string) :
  String.length (a ++ b) = (String.length a + String.length b)%nat.
Proof. induction a as [|c a IH]; cbn; [reflexivity | now rewrite IH]. Qed.

Lemma append_cancel_tail (a b tail : string) : a ++ tail = b ++ tail -> a = b.
Proof.
  revert b. induction a as [|c a IH]; intros [|c' b] H; cbn in H.
  - reflexivity.
  - apply (f_equal String.length) in H. cbn in H. rewrite append_length in H. lia.
  - apply (f_equal String.length) in H. cbn in H. rewrite append_length in H. lia.
  - injection H as -> H. f_equal. now apply IH.
Qed.

(** X15: for every scene number that is a safe integer (below 2^53 in
    magnitude, where [String] writes the exact numeral), also a negative
    one or one of four digits and more, the image name carries the whole
    numeral behind at most two zeros, and two scenes bear the same image
    name only if they bear the same number. *)
Theorem image_name_determines_the_number (s1 s2 : Scene) :
  Z.abs (sceneNumber s1) < 2 ^ 53 ->
  Z.abs (sceneNumber s2) < 2 ^ 53 ->
  (exists zeros,
     (zeros = EmptyString \/ zeros = "0" \/ zeros = "00")
     /\ imageName s1
        = "scene_" ++ zeros ++ Js.number_to_string (sceneNumber s1) ++ ".png")
  /\ (imageName s1 = imageName s2 -> sceneNumber s1 = sceneNumber s2).
Proof.
  intros _ _. split.
  - unfold imageName.
    destruct (padStart_adds_zeros _ (numeral_is_not_empty (sceneNumber s1)))
      as [P | [P | P]]; rewrite P.
    + exists EmptyString. auto.
    + exists "0". auto.
    + exists "00". auto.
  - unfold imageName. intros H. cbn [append] in H. injection H as H.
    apply append_cancel_tail in H. now apply padded_numeral_inj.
Qed.

End AnyNumber.

Lemma image_name_determines_the_number_witness :
  Storyboard.imageName (Sample.scene "x" 1234 None) = "scene_1234.png"
  /\ Storyboard.imageName (Sample.scene "y" (-5) None) = "scene_0-5.png"
  /\ Storyboard.imageName (Sample.scene "x" 1234 None)
     <> Storyboard.imageName (Sample.scene "z" 123 None)
  /\ Storyboard.imageName (Sample.scene "u" 5 None)
     <> Storyboard.imageName (Sample.scene "y" (-5) None).
Proof.
  split; [reflexivity | split; [reflexivity | split]].
  - intros H.
    assert (E : 1234 = 123); [| discriminate E].
    refine (proj2 (image_name_determines_the_number
                     (Sample.scene "x" 1234 None) (Sample.scene "z" 123 None) _ _) H);
      cbn; lia.
  - intros H.
    assert (E : 5 = -5); [| discriminate E].
    refine (proj2 (image_name_determines_the_number
                     (Sample.scene "u" 5 None) (Sample.scene "y" (-5) None) _ _) H);
      cbn; lia.
Defined.

(** ** The prompt editor and the image button *)

Section SceneEditing.
Import Storyboard.

Lemma set_visualPrompt_same (s : Scene) : set_visualPrompt s (visualPrompt s) = s.
Proof. now destruct s. Qed.

Lemma set_scenes_same (p : Project) : set_scenes p (scenes p) = p.
Proof. now destruct p. Qed.

Lemma same_key_same_element {A} (key : A -> string) (l : list A) (a b : A) :
  NoDup (map key l) -> In a l -> In b l -> key a = key b -> a = b.
Proof.
  induction l as [|x l IH]; intros Hd Ha Hb Hk; [destruct Ha |].
  cbn in Hd. inversion Hd as [|? ? Hnot Hd']; subst.
  destruct Ha as [<- | Ha], Hb as [<- | Hb].
  - reflexivity.
  - elim Hnot. rewrite Hk. now apply in_map.
  - elim Hnot. rewrite <- Hk. now apply in_map.
  - now apply IH.
Qed.

(** X16: opening the editor on a scene of the project and saving at
    once hands over the project as it is, the scene identifiers being
    pairwise distinct. *)
Theorem edit_and_save_changes_nothing (project : Project) (scene : Scene) :
  In scene (scenes project) ->
  NoDup (map scene_id (scenes project)) ->
  Editor.handleSavePrompt project (Editor.handleEditClick scene) (scene_id scene)
  = (project, {| Editor.editingSceneId := None;
                 Editor.editPromptValue := visualPrompt scene |}).
Proof.
  intros Hin Hd. unfold Editor.handleSavePrompt, Editor.handleEditClick.
  cbn [Editor.editPromptValue]. f_equal.
  unfold handleSavePrompt, editScenePrompt.
  transitivity (set_scenes project (scenes project)); [| apply set_scenes_same].
  f_equal.
  transitivity (map (fun s => s) (scenes project)); [| apply map_id].
  apply map_ext_in. intros s Hs.
  destruct (String.eqb_spec (scene_id s) (scene_id scene)) as [E|E]; [| reflexivity].
  rewrite (same_key_same_element scene_id (scenes project) s scene Hd Hs Hin E).
  apply set_visualPrompt_same.
Qed.

End SceneEditing.

Lemma edit_and_save_changes_nothing_witness :
  fst (Editor.handleSavePrompt Sample.in_order (Editor.handleEditClick Sample.second) "b")
  = Sample.in_order.
Proof.
  refine (f_equal fst (edit_and_save_changes_nothing Sample.in_order Sample.second _ _)).
  - cbn. auto.
  - cbn. repeat constructor; cbn; intuition discriminate.
Defined.

(** ** Removing and importing characters *)

Section Characters.
Context {platform : Platform}.
Import CharacterManager.

(** X19: on a list of character records [removeCharacter] is the
    filter by identifier: every record that carries the identifier
    goes, also when several do, and the others stay in their order. *)
Theorem removeCharacter_removes_every_match (L : list Character) (id : string) :
  removeCharacter (map Value.of_Character L) id
  = Returned (map Value.of_Character
                (filter (fun c => negb (String.eqb (character_id c) id)) L)).
Proof.
  unfold removeCharacter.
  induction L as [|c L IH]; cbn [map filter filter_other_ids].
  - reflexivity.
  - rewrite lookup_id_of_Character, IH. cbn [Value.strict_neq_string].
    now destruct (String.eqb (character_id c) id).
Qed.

Lemma removal_throws_on_null (characters : list JSON) (id : string) :
  In JNull characters -> removeCharacter characters id = Thrown TypeError.
Proof.
  unfold removeCharacter.
  induction characters as [|c characters IH]; intros Hin; [destruct Hin |].
  cbn [filter_other_ids].
  destruct Hin as [-> | Hin]; [reflexivity |].
  rewrite (IH Hin).
  destruct (Value.get c "id") as [cid|e] eqn:G; [reflexivity |].
  destruct c; cbn in G; try discriminate. now injection G as <-.
Qed.

(** X20: the import takes a [null] entry of the [characters] list like
    any other, and with a [null] in the list every later removal throws
    a [TypeError] and hands nothing to [onUpdate], whatever identifier
    is asked for. *)
Theorem imported_null_breaks_removal
  (existing : list JSON) (jsonInput : string)
  (props : list (string * JSON)) (added : list JSON) :
  JSON_parse jsonInput = Some (JObject props) ->
  Value.lookup "characters" props = Some (JArray added) ->
  In JNull added ->
  exists imported,
    onUpdate (handleImportJson existing jsonInput) = Some imported
    /\ forall id, removeCharacter imported id = Thrown TypeError.
Proof.
  intros Hparse Hcs Hnull. unfold handleImportJson.
  rewrite Hparse. cbn [Value.get]. rewrite Hcs. cbn [Value.isArray onUpdate].
  eexists. split; [reflexivity |].
  intros id. apply removal_throws_on_null, in_or_app. now right.
Qed.

(** X21: [handleImportJson] ends in exactly one of three ways.  It hands
    the existing list followed by the parsed one to [onUpdate] and clears
    the error, when the text parses to an object with a list under
    [characters]; it reports a syntax error and hands over nothing, when
    the text does not parse or parses to [null]; it reports a format
    error and hands over nothing, in every other case. *)
Theorem import_ends_in_one_of_three_ways (existing : list JSON) (jsonInput : string) :
  (exists props added,
     JSON_parse jsonInput = Some (JObject props)
     /\ Value.lookup "characters" props = Some (JArray added)
     /\ onUpdate (handleImportJson existing jsonInput) = Some (existing ++ added)%list
     /\ setError (handleImportJson existing jsonInput) = Some None)
  \/ ((JSON_parse jsonInput = None \/ JSON_parse jsonInput = Some JNull)
      /\ handleImportJson existing jsonInput = failed ParseError)
  \/ ((exists parsed,
         JSON_parse jsonInput = Some parsed /\ parsed <> JNull
         /\ forall props added,
              parsed = JObject props ->
              Value.lookup "characters" props <> Some (JArray added))
      /\ handleImportJson existing jsonInput = failed SchemaError).
Proof.
  unfold handleImportJson.
  destruct (JSON_parse jsonInput) as [parsed|]; [| right; left; auto].
  destruct parsed as [| b | n | s | items | props]; cbn [Value.get Value.isArray];
    try (right; right; split; [eexists; repeat split; discriminate | reflexivity]).
  - right. left. auto.
  - destruct (Value.lookup "characters" props) as [[| b | n | s | items | props']|] eqn:L;
      cbn [Value.isArray];
      try (right; right; split; [| reflexivity];
           eexists; split; [reflexivity |]; split; [discriminate |];
           intros props0 added [= <-]; rewrite L; discriminate).
    left. exists props, items. auto.
Qed.

End Characters.

Lemma imported_null_breaks_removal_witness :
  let q := Js.dq in
  let t := "{" ++ q ++ "characters" ++ q ++ ": [null]}" in
  exists imported,
    CharacterManager.onUpdate
      (@CharacterManager.handleImportJson Sample.keyed App.INITIAL_CHARACTERS t)
    = Some imported
    /\ CharacterManager.removeCharacter imported "char_bella" = Thrown TypeError.
Proof.
  intros q t.
  destruct (@imported_null_breaks_removal Sample.keyed App.INITIAL_CHARACTERS t
              [("characters", JArray [JNull])] [JNull]) as (imported & Himp & Hrem).
  - vm_compute. reflexivity.
  - reflexivity.
  - now left.
  - exists imported. split; [exact Himp | apply Hrem].
Defined.

(** ** The store handlers, one by one *)

Section StoreHandlers.
Import App.

(** X22: [updateProject] replaces in place: the identifiers of the
    store, and so its length and order, stay as they are, a project with
    another identifier stays where and what it was, every project with
    the identifier becomes the updated one, and the snapshot stored is
    the new list. *)
Theorem update_replaces_in_place (updated : Project) (s : state) :
  map project_id (projects (updateProject updated s)) = map project_id (projects s)
  /\ (forall i p,
        nth_error (projects s) i = Some p ->
        project_id p <> project_id updated ->
        nth_error (projects (updateProject updated s)) i = Some p)
  /\ (forall p,
        In p (projects (updateProject updated s)) ->
        project_id p = project_id updated -> p = updated)
  /\ storage (updateProject updated s) = Some (projects (updateProject updated s)).
Proof.
  unfold updateProject. cbn [projects storage].
  split; [| split; [| split]].
  - rewrite map_map. apply map_ext. intros p.
    destruct (String.eqb_spec (project_id p) (project_id updated)); congruence.
  - intros i p Hi Hne. rewrite nth_error_map, Hi. cbn [option_map].
    destruct (String.eqb_spec (project_id p) (project_id updated)); congruence.
  - intros p Hin Hid. apply in_map_iff in Hin as (p0 & Hp0 & _).
    destruct (String.eqb_spec (project_id p0) (project_id updated)); congruence.
  - reflexivity.
Qed.

(** X23: a confirmed [handleDeleteProject] keeps exactly the projects
    with another identifier, in their order; the current project it
    leaves is never one with the identifier deleted; a declined one
    changes nothing. *)
Theorem delete_removes_exactly_the_id (id : string) (s : state) :
  (forall p, In p (projects (handleDeleteProject true id s))
             <-> In p (projects s) /\ project_id p <> id)
  /\ (forall current,
        currentProject (handleDeleteProject true id s) = Some current ->
        project_id current <> id /\ currentProject s = Some current)
  /\ (forall current,
        currentProject s = Some current -> project_id current = id ->
        currentProject (handleDeleteProject true id s) = None
        /\ view (handleDeleteProject true id s) = dashboard)
  /\ storage (handleDeleteProject true id s)
     = Some (projects (handleDeleteProject true id s))
  /\ handleDeleteProject false id s = s.
Proof.
  unfold handleDeleteProject.
  cbn [negb projects currentProject view storage].
  split; [| split; [| split; [| split]]].
  - intros p. rewrite filter_In.
    destruct (String.eqb_spec (project_id p) id); cbn; intuition congruence.
  - intros current. unfold is_current.
    destruct (currentProject s) as [cp|]; [| discriminate].
    destruct (String.eqb_spec (project_id cp) id); [discriminate |].
    intros [= <-]. auto.
  - intros current Hc Hid. unfold is_current. rewrite Hc, Hid, String.eqb_refl. auto.
  - reflexivity.
  - reflexivity.
Qed.

(** X24: [updateProject] with a project whose identifier is not in the
    store leaves the list as it is and still makes that project the
    current one: the current project is then none of the store. *)
Theorem update_of_an_absent_project (updated : Project) (s : state) :
  ~ In (project_id updated) (map project_id (projects s)) ->
  projects (updateProject updated s) = projects s
  /\ currentProject (updateProject updated s) = Some updated
  /\ ~ In updated (projects (updateProject updated s)).
Proof.
  intros Habsent.
  assert (Hsame : projects (updateProject updated s) = projects s).
  { unfold updateProject. cbn [projects]. apply replace_absent_project.
    intros p Hp E. apply Habsent. rewrite <- E. now apply in_map. }
  split; [exact Hsame | split; [reflexivity |]].
  rewrite Hsame. intros Hin. apply Habsent. now apply in_map.
Qed.

End StoreHandlers.

Lemma update_of_an_absent_project_witness :
  let gone :=
    {| project_id := "gone";
       project_name := "Deleted elsewhere";
       project_type := LONG;
       style := CLAYMATION;
       createdAt := 1;
       characters := App.INITIAL_CHARACTERS;
       scenes := [Sample.first];
       storyIdea := "A cat learns to fly" |} in
  let s := Workspace.onSelect Sample.in_order (Sample.store [Sample.in_order]) in
  App.projects (App.updateProject gone s) = [Sample.in_order]
  /\ App.currentProject (App.updateProject gone s) = Some gone
  /\ ~ In gone (App.projects (App.updateProject gone s)).
Proof.
  intros gone s.
  apply (update_of_an_absent_project gone s).
  cbn. intuition discriminate.
Defined.

(** ** What the handlers keep *)

Section Consistency.
Context {platform : Platform}.
Import App.

Lemma updated_is_in_store (updated current : Project) (s : state) :
  In current (projects s) ->
  project_id updated = project_id current ->
  In updated (projects (updateProject updated s)).
Proof.
  intros Hin Hid. unfold updateProject. cbn [projects].
  apply in_map_iff. exists current. split; [| assumption].
  now rewrite Hid, String.eqb_refl.
Qed.

Lemma update_current_consistent (change : Project -> Project) (s : state) :
  (forall p, project_id (change p) = project_id p) ->
  Invariant.saved s -> Invariant.current_in_store s ->
  Invariant.saved (Workspace.update_current change s)
  /\ Invariant.current_in_store (Workspace.update_current change s).
Proof.
  intros Hid Hsaved Hcur. unfold Workspace.update_current.
  destruct (currentProject s) as [current|] eqn:C; [| now split].
  split; [reflexivity |].
  intros c. cbn [currentProject updateProject]. intros [= <-].
  apply (updated_is_in_store (change current) current); [now apply Hcur | apply Hid].
Qed.

(** X25: two things hold of the [App] state after every store and
    workspace handler if they held before: the snapshot stored is the
    project list, and the current project, if there is one, is a project
    of the list.  The handlers are: create, delete (confirmed or not),
    select, the change of the story idea, the update of the characters,
    the import and the removal of characters, the save of a prompt and
    the generation of an image. *)
Theorem handlers_keep_the_store_consistent (s : state) :
  Invariant.saved s ->
  Invariant.current_in_store s ->
  let kept s' := Invariant.saved s' /\ Invariant.current_in_store s' in
  (forall now w, exists s' w',
      handleCreateProject now s w = (Returned s', w') /\ kept s')
  /\ (forall confirmed id, kept (handleDeleteProject confirmed id s))
  /\ (forall proj, In proj (projects s) -> kept (Workspace.onSelect proj s))
  /\ (forall value, kept (Workspace.onStoryIdeaChange value s))
  /\ (forall chars, kept (Workspace.onUpdate chars s))
  /\ (forall jsonInput, kept (Workspace.importJson jsonInput s))
  /\ (forall id s', Workspace.removeCharacter id s = Returned s' -> kept s')
  /\ (forall text id, kept (Workspace.savePrompt text id s))
  /\ (forall scene w, exists s' w',
        Workspace.generateImage scene s w = (Returned s', w') /\ kept s').
Proof.
  intros Hsaved Hcur kept. unfold kept.
  repeat match goal with |- _ /\ _ => split end.
  - intros now w. unfold handleCreateProject, bind, crypto_randomUUID, ret.
    eexists. eexists. split; [reflexivity |]. split; [reflexivity |].
    intros c. cbn [currentProject projects]. intros [= <-]. now left.
  - intros [|] id; [| now split]. unfold handleDeleteProject. cbn [negb].
    split; [reflexivity |].
    intros c. cbn [currentProject projects]. unfold is_current.
    destruct (currentProject s) as [cp|] eqn:C; [| discriminate].
    destruct (String.eqb_spec (project_id cp) id) as [E|E]; [discriminate |].
    intros [= <-]. apply filter_In. split; [now apply Hcur |].
    now destruct (String.eqb_spec (project_id cp) id).
  - intros proj Hin. split; [exact Hsaved |].
    intros c. cbn [currentProject Workspace.onSelect projects]. now intros [= <-].
  - intros value. now apply update_current_consistent.
  - intros chars. now apply update_current_consistent.
  - intros jsonInput. unfold Workspace.importJson.
    destruct (currentProject s) as [current|]; [| now split].
    destruct (CharacterManager.onUpdate _); [| now split].
    now apply update_current_consistent.
  - intros id s'. unfold Workspace.removeCharacter.
    destruct (currentProject s) as [current|]; [| intros [= <-]; now split].
    destruct (CharacterManager.removeCharacter _ _); [| discriminate].
    intros [= <-]. now apply update_current_consistent.
  - intros text id. now apply update_current_consistent.
  - intros scene w. unfold Workspace.generateImage.
    destruct (currentProject s) as [current|] eqn:C;
      [| exists s, w; split; [reflexivity | now split]].
    unfold Storyboard.handleGenerateImage.
    destruct (Service.generateScenePreview (visualPrompt scene) w) as [[image|e] w'].
    + eexists. eexists. split; [reflexivity |]. split; [reflexivity |].
      intros c. cbn [currentProject updateProject]. intros [= <-].
      apply (updated_is_in_store _ current); [now apply Hcur | reflexivity].
    + exists s, w'. split; [reflexivity | now split].
Qed.

(** X26: the identifiers of the store stay pairwise distinct: under
    delete and under every update always, under create when the
    identifier drawn is none of the store. *)
Theorem identifiers_stay_distinct (s : state) :
  Invariant.distinct_ids s ->
  (forall confirmed id, Invariant.distinct_ids (handleDeleteProject confirmed id s))
  /\ (forall updated, Invariant.distinct_ids (updateProject updated s))
  /\ (forall now w,
        ~ In (randomUUID (issued w)) (map project_id (projects s)) ->
        exists s' w',
          handleCreateProject now s w = (Returned s', w')
          /\ Invariant.distinct_ids s').
Proof.
  unfold Invariant.distinct_ids. intros Hd. split; [| split].
  - intros [|] id; [| exact Hd]. unfold handleDeleteProject. cbn [negb projects].
    induction (projects s) as [|p ps IH]; cbn [filter map]; [constructor |].
    cbn [map] in Hd. inversion Hd as [|? ? Hnot Hd']; subst.
    destruct (negb (String.eqb (project_id p) id)); [| now apply IH].
    cbn [map]. constructor; [| now apply IH].
    intros Hin. apply Hnot. apply in_map_iff in Hin as (q & Hq & Hin).
    apply filter_In in Hin as [Hin _]. rewrite <- Hq. now apply in_map.
  - intros updated. unfold updateProject. cbn [projects].
    rewrite map_map.
    erewrite map_ext; [exact Hd |].
    intros p. cbn beta.
    destruct (String.eqb_spec (project_id p) (project_id updated)); congruence.
  - intros now w Hfresh. unfold handleCreateProject, bind, crypto_randomUUID, ret.
    eexists. eexists. split; [reflexivity |].
    cbn [projects map project_id]. now constructor.
Qed.

(** X27: the import through the workspace appends to the characters of
    the current project and keeps the identifiers of the store; it
    detects no duplicate, so that the same text imported twice leaves
    its characters twice. *)
Theorem import_twice_doubles
  (s : state) (current : Project) (jsonInput : string)
  (props : list (string * JSON)) (added : list JSON) :
  currentProject s = Some current ->
  JSON_parse jsonInput = Some (JObject props) ->
  Value.lookup "characters" props = Some (JArray added) ->
  currentProject (Workspace.importJson jsonInput s)
  = Some (Workspace.set_characters current (characters current ++ added)%list)
  /\ currentProject (Workspace.importJson jsonInput (Workspace.importJson jsonInput s))
     = Some (Workspace.set_characters current
               (characters current ++ added ++ added)%list)
  /\ map project_id (projects (Workspace.importJson jsonInput
                                 (Workspace.importJson jsonInput s)))
     = map project_id (projects s).
Proof.
  intros Hcur Hparse Hcs.
  assert (Hstep : forall s0 c0,
            currentProject s0 = Some c0 ->
            Workspace.importJson jsonInput s0
            = updateProject (Workspace.set_characters c0 (characters c0 ++ added)%list) s0).
  { intros s0 c0 H0. unfold Workspace.importJson, CharacterManager.handleImportJson.
    rewrite H0, Hparse. cbn [Value.get]. rewrite Hcs.
    cbn [Value.isArray CharacterManager.onUpdate].
    unfold Workspace.onUpdate, Workspace.update_current. now rewrite H0. }
  rewrite (Hstep s current Hcur).
  split; [reflexivity |].
  rewrite (Hstep (updateProject
                    (Workspace.set_characters current (characters current ++ added)%list) s)
                 (Workspace.set_characters current (characters current ++ added)%list)
                 eq_refl).
  cbn [characters Workspace.set_characters]. rewrite <- app_assoc.
  split; [reflexivity |].
  cbn [updateProject projects]. rewrite !map_map.
  apply map_ext. intros p. cbn [project_id Workspace.set_characters].
  destruct (String.eqb_spec (project_id p) (project_id current)) as [E|E];
    cbn [project_id].
  - now rewrite String.eqb_refl.
  - now destruct (String.eqb_spec (project_id p) (project_id current)).
Qed.

(** X28: when the preview fails, for want of a key, by a rejected call
    or for want of an image part in the response, the image button
    leaves the [App] state as it is. *)
Theorem failed_image_leaves_the_state (scene : Scene) (s : state) (w : World) (e : error) :
  fst (Service.generateScenePreview (visualPrompt scene) w) = Thrown e ->
  fst (Workspace.generateImage scene s w) = Returned s.
Proof.
  intros Hfail. unfold Workspace.generateImage.
  destruct (currentProject s) as [current|]; [| reflexivity].
  unfold Storyboard.handleGenerateImage.
  destruct (Service.generateScenePreview (visualPrompt scene) w) as [[image|e'] w'];
    [discriminate | reflexivity].
Qed.


End Consistency.

Lemma handlers_keep_the_store_consistent_witness :
  let s := Workspace.onSelect Sample.in_order (Sample.store [Sample.in_order]) in
  Invariant.saved (@Workspace.importJson Sample.keyed INITIAL_CHARACTERS_JSON s)
  /\ Invariant.current_in_store
       (@Workspace.importJson Sample.keyed INITIAL_CHARACTERS_JSON s).
Proof.
  intros s.
  assert (Hsaved : Invariant.saved s) by reflexivity.
  assert (Hcur : Invariant.current_in_store s).
  { intros c. cbn. intros [= <-]. now left. }
  destruct (@handlers_keep_the_store_consistent Sample.keyed s Hsaved Hcur)
    as (_ & _ & _ & _ & _ & Himport & _).
  apply Himport.
Defined.

Lemma identifiers_stay_distinct_witness :
  let s := Sample.store [Sample.in_order] in
  exists s' w',
    @App.handleCreateProject Sample.keyed 1700000000000 s Sample.start = (Returned s', w')
    /\ Invariant.distinct_ids s'.
Proof.
  intros s.
  assert (Hd : Invariant.distinct_ids s).
  { unfold Invariant.distinct_ids. cbn. repeat constructor. intros []. }
  destruct (@identifiers_stay_distinct Sample.keyed s Hd) as (_ & _ & Hcreate).
  apply Hcreate. cbn. intuition discriminate.
Defined.

Lemma import_twice_doubles_witness :
  let s := Workspace.onSelect Sample.in_order (Sample.store [Sample.in_order]) in
  App.currentProject
    (@Workspace.importJson Sample.keyed INITIAL_CHARACTERS_JSON
       (@Workspace.importJson Sample.keyed INITIAL_CHARACTERS_JSON s))
  = Some (Workspace.set_characters Sample.in_order
            (App.INITIAL_CHARACTERS ++ App.INITIAL_CHARACTERS ++ App.INITIAL_CHARACTERS)%list).
Proof.
  intros s.
  refine (proj1 (proj2 (@import_twice_doubles Sample.keyed s Sample.in_order
                          INITIAL_CHARACTERS_JSON
                          [("characters", JArray App.INITIAL_CHARACTERS)]
                          App.INITIAL_CHARACTERS eq_refl _ eq_refl))).
  vm_compute. reflexivity.
Defined.

Lemma failed_image_leaves_the_state_witness :
  let s := Workspace.onSelect Sample.in_order (Sample.store [Sample.in_order]) in
  fst (@Workspace.generateImage Sample.keyless Sample.second s Sample.start) = Returned s.
Proof.
  intros s.
  apply (@failed_image_leaves_the_state Sample.keyless Sample.second s Sample.start
           Service.MissingCredential).
  reflexivity.
Defined.

(** ** From the image button to the archive *)

Section ImageToArchive.
Context {platform : Platform}.
Import App Storyboard.

Lemma imageName_after_image (scenes : list Scene) (id image : string) :
  map imageName (setSceneImage scenes id image) = map imageName scenes.
Proof.
  unfold setSceneImage. rewrite map_map. apply map_ext. intros s.
  now destruct (String.eqb (scene_id s) id).
Qed.

(** X17: with a key, a response whose first image part carries
    non-empty inline data without a comma, and a current project that
    holds the scene with no later scene of the same image name, the image
    button makes the project one whose export files exactly that inline
    data under the scene's image name. *)
Theorem generated_image_is_exported
  (s : state) (current : Project) (before after : list Scene) (scene : Scene)
  (w : World) (r : response) (skipped rest : list part) (data : string) :
  currentProject s = Some current ->
  scenes current = (before ++ scene :: after)%list ->
  (forall s', In s' after -> imageName s' <> imageName scene) ->
  Js.truthy_opt API_KEY = true ->
  generateContent (List.length (calls w)) (Service.previewRequest (visualPrompt scene))
  = Returned r ->
  Service.first_parts r = (skipped ++ {| inlineData := Some data |} :: rest)%list ->
  Forall (fun p => inlineData p = None) skipped ->
  data <> EmptyString ->
  ~ In ","%char (list_ascii_of_string data) ->
  exists s' updated,
    fst (Workspace.generateImage scene s w) = Returned s'
    /\ currentProject s' = Some updated
    /\ Archive.entry_of (imageName scene) (archive (handleDownloadAssets updated))
       = Some {| JSZip.data := data; JSZip.base64 := true |}.
Proof.
  intros Hcur Hscenes Hafter Hkey Hcall Hparts Hskipped Hne Hcomma.
  unfold Workspace.generateImage. rewrite Hcur. unfold handleGenerateImage.
  rewrite (preview_after_the_call _ w r Hkey Hcall), Hparts,
    (first_image_skips _ _ _ Hskipped).
  eexists. eexists. split; [reflexivity |]. split; [reflexivity |].
  rewrite archive_of_export.
  rewrite entry_of_file_other by apply imageName_is_not_the_manifest.
  cbn [scenes set_scenes]. rewrite Hscenes. unfold setSceneImage.
  rewrite map_app, fold_left_app. cbn [map fold_left].
  rewrite String.eqb_refl.
  rewrite entry_after_loop.
  - rewrite sceneFile_payload, payload_of_data_uri by assumption.
    apply entry_of_file_same.
  - intros s' Hs' _ Heq. apply in_map_iff in Hs' as (s0 & <- & Hs0).
    apply (Hafter s0 Hs0).
    now destruct (String.eqb (scene_id s0) (scene_id scene)).
Qed.

End ImageToArchive.

Lemma generated_image_is_exported_witness :
  let r := {| text := None;
              candidates :=
                Some [ {| candidate_content :=
                            Some {| parts := Some [ {| inlineData := None |};
                                                    {| inlineData := Some "iVBORw0KGgo=" |} ] |} |} ] |} in
  let painter := Sample.platform_with (Some "secret") (Returned r) in
  let s := Workspace.onSelect Sample.in_order (Sample.store [Sample.in_order]) in
  exists s' updated,
    fst (@Workspace.generateImage painter Sample.first s Sample.start) = Returned s'
    /\ App.currentProject s' = Some updated
    /\ Archive.entry_of "scene_001.png"
         (Storyboard.archive (Storyboard.handleDownloadAssets updated))
       = Some {| JSZip.data := "iVBORw0KGgo="; JSZip.base64 := true |}.
Proof.
  intros r painter s.
  apply (@generated_image_is_exported painter s Sample.in_order
           [] [Sample.second] Sample.first Sample.start r
           [ {| inlineData := None |} ] [] "iVBORw0KGgo=").
  - reflexivity.
  - reflexivity.
  - intros s' [<- | []]. discriminate.
  - reflexivity.
  - reflexivity.
  - reflexivity.
  - repeat constructor.
  - discriminate.
  - cbn. intuition discriminate.
Defined.
